(** * FlipTrackr: the flip ledger engine

    A shallow embedding of the computational core of the FlipTrackr
    application (TypeScript / React Native):

    - [src/utils/parseLineItem.ts]: the quick-entry parser and its
      four-operator evaluator;
    - [src/db/sqlite.ts]: [computeTotals] (over an explicit database
      value), [createFlip], [addLineItem] and [deleteLineItem];
    - [src/state/FlipsContext.tsx]: [duplicateFlip] and [loadSampleData];
    - [src/screens/FlipSheet.tsx]: [computeWhatIfTotals];
    - [src/screens/Home.tsx]: [filteredFlips] and [loadFlipTotals];
    - [src/screens/Settings.tsx]: the summary accumulated by
      [exportCompleteTaxReport], and [exportTaxReportForFlip];
    - [src/utils/taxExport.ts]: the two tax-report generators and the name
      of the report file;
    - [src/utils/dates.ts]: [getDaysToSell].

    Modelling conventions.

    - A JavaScript [number] that holds a monetary value is an exact rational
      ([Qc], canonical fractions with Leibniz equality): binary64 rounding
      and overflow are not modelled.  [NaN] only arises from [parseFloat]
      and is the [None] of an [option].
    - A JavaScript string is the list of its UTF-16 code units.
    - Regular expressions are values of a small regex type, run by a
      backtracking matcher with greedy quantifiers, the order in which the
      JavaScript engine explores alternatives.
    - The database, the React state and the clock are explicit arguments. *)

From Stdlib Require Import Ascii String.
From Stdlib Require Import List ZArith QArith Qcanon Qround.
From Stdlib Require Import Lia Bool Permutation Sorted DecimalString.
Import ListNotations.
Close Scope Q_scope.
Close Scope Qc_scope.
Open Scope list_scope.

Set Implicit Arguments.

(** ** Numbers *)

Abbreviation number := Qc.

Definition numZ (z : Z) : number := Q2Qc (inject_Z z).

Definition leb (x y : number) : bool := Qle_bool x y.
Definition ltb (x y : number) : bool := negb (Qle_bool y x).
Definition eqb (x y : number) : bool := Qeq_bool x y.

(** [Math.round]: the nearest integer, ties towards plus infinity. *)
Definition Math_round (x : number) : number :=
  numZ (Qfloor (x + Q2Qc (1 # 2))%Qc).

(** [Math.abs]. *)
Definition Math_abs (x : number) : number :=
  if ltb x 0 then (- x)%Qc else x.

(** [x || 0] on an optional number: [undefined], [null] and [0] give [0]. *)
Definition orZero (x : option number) : number :=
  match x with
  | Some v => v
  | None => 0%Qc
  end.

(** ** Strings *)

(** A UTF-16 code unit. *)
Definition char := N.

Definition str := list char.

Definition chr (a : ascii) : char := N_of_ascii a.
Arguments chr a%_char.

Definition lit (s : string) : str := map chr (list_ascii_of_string s).
Arguments lit s%_string.

Definition char_eqb (a b : char) : bool := N.eqb a b.

Definition str_dec (a b : str) : {a = b} + {a <> b} :=
  list_eq_dec N.eq_dec a b.

Definition str_eqb (a b : str) : bool :=
  if str_dec a b then true else false.

Definition isEmpty (s : str) : bool :=
  match s with
  | [] => true
  | _ :: _ => false
  end.

Definition isDigit (c : char) : bool :=
  (48 <=? c)%N && (c <=? 57)%N.

(** The class [\s], which is also what [trim] removes: the white space and
    the line terminators of ECMAScript. *)
Definition isSpace (c : char) : bool :=
  ((9 <=? c)%N && (c <=? 13)%N)
  || (c =? 32)%N || (c =? 160)%N || (c =? 5760)%N
  || ((8192 <=? c)%N && (c <=? 8202)%N)
  || (c =? 8232)%N || (c =? 8233)%N || (c =? 8239)%N || (c =? 8287)%N
  || (c =? 12288)%N || (c =? 65279)%N.

(** [.] matches everything but a line terminator. *)
Definition isDot (c : char) : bool :=
  negb ((c =? 10)%N || (c =? 13)%N || (c =? 8232)%N || (c =? 8233)%N).

Definition isChar (a : ascii) (c : char) : bool := char_eqb (chr a) c.
Arguments isChar a%_char c.

(** [[+\-]] and [[*/]], the two separators of [split]. *)
Definition isPlusMinus (c : char) : bool :=
  isChar "+" c || isChar "-" c.

Definition isTimesDiv (c : char) : bool :=
  isChar "*" c || isChar "/" c.

(** [[0-9+\-*/.]] *)
Definition isMath (c : char) : bool :=
  isDigit c || isPlusMinus c || isTimesDiv c || isChar "." c.

(** [[0-9+\-*/.\s]] *)
Definition isMathSpace (c : char) : bool :=
  isMath c || isSpace c.

Fixpoint dropWhile (p : char -> bool) (s : str) : str :=
  match s with
  | [] => []
  | c :: s' => if p c then dropWhile p s' else s
  end.

Fixpoint span (p : char -> bool) (s : str) : str * str :=
  match s with
  | [] => ([], [])
  | c :: s' =>
      if p c then let (a, b) := span p s' in (c :: a, b) else ([], s)
  end.

(** [String.prototype.trim] *)
Definition trim (s : str) : str :=
  rev (dropWhile isSpace (rev (dropWhile isSpace s))).

(** [s.replace(/\s/g, '')] *)
Definition removeSpaces (s : str) : str :=
  filter (fun c => negb (isSpace c)) s.

(** [s.split(/([d])/)]: the pieces between separators, with every separator
    kept as an element of its own (the regex has a capturing group). *)
Fixpoint splitKeep (d : char -> bool) (cur : str) (s : str) : list str :=
  match s with
  | [] => [rev cur]
  | c :: s' =>
      if d c then rev cur :: [c] :: splitKeep d [] s'
      else splitKeep d (c :: cur) s'
  end.

Definition split (d : char -> bool) (s : str) : list str := splitKeep d [] s.

(** ** A backtracking matcher for anchored regular expressions *)

Module Regex.

Inductive quant := Once | Optional | Star | Plus.

(** One quantified character class, possibly a capturing group. *)
Record node := Node { cls : char -> bool; qt : quant; capture : bool }.

Definition regex := list node.

Section Matcher.
Variable R : Type.

(** Greedy repetition: consume as much as possible, give back one
    character at a time while the continuation fails. *)
Fixpoint greedy (p : char -> bool) (k : str -> str -> option R)
         (taken : str) (s : str) : option R :=
  match s with
  | [] => k (rev taken) []
  | c :: s' =>
      if p c then
        match greedy p k (c :: taken) s' with
        | Some r => Some r
        | None => k (rev taken) s
        end
      else k (rev taken) s
  end.

Definition matchNode (n : node) (k : str -> str -> option R) (s : str)
  : option R :=
  match qt n with
  | Once =>
      match s with
      | c :: s' => if cls n c then k [c] s' else None
      | [] => None
      end
  | Optional =>
      match s with
      | c :: s' =>
          if cls n c then
            match k [c] s' with
            | Some r => Some r
            | None => k [] s
            end
          else k [] s
      | [] => k [] []
      end
  | Star => greedy (cls n) k [] s
  | Plus =>
      match s with
      | c :: s' => if cls n c then greedy (cls n) k [c] s' else None
      | [] => None
      end
  end.
End Matcher.

(** [^ r $]: the captured groups of the first successful way to match the
    whole string. *)
Fixpoint matchNodes (r : regex) (caps : list str) (s : str)
  : option (list str) :=
  match r with
  | [] =>
      match s with
      | [] => Some (rev caps)
      | _ :: _ => None
      end
  | n :: r' =>
      matchNode n
        (fun taken rest =>
           matchNodes r' (if capture n then taken :: caps else caps) rest)
        s
  end.

Definition exec (r : regex) (s : str) : option (list str) :=
  matchNodes r [] s.

Definition test (r : regex) (s : str) : bool :=
  match exec r s with
  | Some _ => true
  | None => false
  end.

(** [m[i]] for a group number [i >= 1]. *)
Definition group (m : list str) (i : nat) : str := nth (i - 1) m [].

End Regex.

Import Regex.

(** ** [parseFloat] *)

Definition digitVal (c : char) : Z := Z.of_N c - 48.

Definition digitsVal (ds : str) : Z :=
  fold_left (fun acc c => acc * 10 + digitVal c)%Z ds 0%Z.

Definition pow10 (e : Z) : number :=
  if (0 <=? e)%Z then numZ (10 ^ e) else (/ numZ (10 ^ (- e)))%Qc.

(** The exponent part [[eE][+-]?digits] of a decimal literal, when there
    is one. *)
Definition exponentPart (s : str) : Z :=
  match s with
  | c :: r =>
      if isChar "e" c || isChar "E" c then
        let '(neg, r') :=
          match r with
          | d :: r'' =>
              if isChar "-" d then (true, r'')
              else if isChar "+" d then (false, r'')
              else (false, r)
          | [] => (false, r)
          end in
        let (ds, _) := span isDigit r' in
        if isEmpty ds then 0%Z
        else if neg then (- digitsVal ds)%Z else digitsVal ds
      else 0%Z
  | [] => 0%Z
  end.

(** An optional sign. *)
Definition readSign (s : str) : bool * str :=
  match s with
  | c :: r =>
      if isChar "-" c then (true, r)
      else if isChar "+" c then (false, r)
      else (false, s)
  | [] => (false, s)
  end.

(** An optional point and the digits after it. *)
Definition readFraction (s : str) : str * str :=
  match s with
  | c :: r => if isChar "." c then span isDigit r else ([], s)
  | [] => ([], s)
  end.

(** [parseFloat]: skip leading white space, read the longest prefix that is
    a decimal literal, ignore what follows; [None] is [NaN].  The literal
    [Infinity] is not modelled: no caller in the evaluator can pass a
    letter. *)
Definition parseFloat (s : str) : option number :=
  let (neg, s2) := readSign (dropWhile isSpace s) in
  let (ip, r1) := span isDigit s2 in
  let (fp, r2) := readFraction r1 in
  if isEmpty ip && isEmpty fp then None
  else
    let mant :=
      (numZ (digitsVal (ip ++ fp)) * pow10 (- Z.of_nat (length fp)))%Qc in
    let v := (mant * pow10 (exponentPart r2))%Qc in
    Some (if neg then (- v)%Qc else v).

(** ** The evaluator of [parseLineItem.ts] *)

(** The loop [for (let i = 1; i < tokens.length; i += 2)] of
    [evaluateMultiplyDivide], on the tokens from index [i] on.  A missing
    [tokens[i + 1]] is [undefined], which [parseFloat] turns into [NaN]. *)
Fixpoint multiplyDivideLoop (result : number) (tokens : list str)
  : option number :=
  match tokens with
  | [] => Some result
  | [_] => None
  | op :: v :: rest =>
      match parseFloat v with
      | None => None
      | Some value =>
          if str_eqb op (lit "*") then
            multiplyDivideLoop (result * value)%Qc rest
          else if str_eqb op (lit "/") then
            if eqb value 0 then None
            else multiplyDivideLoop (result / value)%Qc rest
          else multiplyDivideLoop result rest
      end
  end.

Definition evaluateMultiplyDivide (expression : str) : option number :=
  let tokens := split isTimesDiv expression in
  match parseFloat (nth 0 tokens []) with
  | None => None
  | Some result => multiplyDivideLoop result (tl tokens)
  end.

(** The loop [for (const token of tokens)] of [evaluateMath]. *)
Fixpoint addSubtractLoop (result : number) (currentOp : str)
         (tokens : list str) : option number :=
  match tokens with
  | [] => Some result
  | token :: rest =>
      if str_eqb token (lit "+") || str_eqb token (lit "-") then
        addSubtractLoop result token rest
      else
        match evaluateMultiplyDivide token with
        | None => None
        | Some value =>
            if str_eqb currentOp (lit "+") then
              addSubtractLoop (result + value)%Qc currentOp rest
            else
              addSubtractLoop (result - value)%Qc currentOp rest
        end
  end.

(** [/^[0-9+\-*/.]+$/] *)
Definition mathOnly : regex := [Node isMath Plus false].

Definition round2 (result : number) : number :=
  (Math_round (result * numZ 100) / numZ 100)%Qc.

Definition evaluateMath (expression : str) : option number :=
  let cleaned := removeSpaces expression in
  if negb (test mathOnly cleaned) then None
  else
    let tokens := split isPlusMinus cleaned in
    match addSubtractLoop 0%Qc (lit "+") tokens with
    | None => None
    | Some result => Some (round2 result)
    end.

(** ** [parseLineItem] *)

Inductive ParseResult :=
| Parsed (amount : number) (title : str)
| ParseError (error : str).

(** [/^\$?\s*([0-9+\-*/.\s]+)\s*-\s*(.+)$/] *)
Definition dollarPattern : regex :=
  [ Node (isChar "$") Optional false;
    Node isSpace Star false;
    Node isMathSpace Plus true;
    Node isSpace Star false;
    Node (isChar "-") Once false;
    Node isSpace Star false;
    Node isDot Plus true ].

(** [/^([0-9+\-*/.\s]+)\s+(.+)$/] *)
Definition numberPattern : regex :=
  [ Node isMathSpace Plus true;
    Node isSpace Plus false;
    Node isDot Plus true ].

(** [/^([0-9+\-*/.\s]+)(.{0,})$/], the source writing the last group with a
    star. *)
Definition simplePattern : regex :=
  [ Node isMathSpace Plus true;
    Node isDot Star true ].

Definition emptyInputError : str := lit "Input cannot be empty".
Definition emptyTitleError : str := lit "Title cannot be empty".
Definition invalidAmountError : str := lit "Invalid amount".
Definition unparseableError : str :=
  lit "Could not parse input. Try format: $190 - description".

Definition parseLineItem (input : str) : ParseResult :=
  let trimmed := trim input in
  if isEmpty trimmed then ParseError emptyInputError
  else
    match exec dollarPattern trimmed with
    | Some dollarMatch =>
        let amountStr := trim (group dollarMatch 1) in
        let title := trim (group dollarMatch 2) in
        if isEmpty title then ParseError emptyTitleError
        else
          match evaluateMath amountStr with
          | None => ParseError invalidAmountError
          | Some amount =>
              if leb amount 0 then ParseError invalidAmountError
              else Parsed amount title
          end
    | None =>
        match exec numberPattern trimmed with
        | Some numberMatch =>
            let amountStr := trim (group numberMatch 1) in
            let title := trim (group numberMatch 2) in
            if isEmpty title then ParseError emptyTitleError
            else
              match evaluateMath amountStr with
              | None => ParseError invalidAmountError
              | Some amount =>
                  if leb amount 0 then ParseError invalidAmountError
                  else Parsed amount title
              end
        | None =>
            match exec simplePattern trimmed with
            | Some simpleMatch =>
                let amountStr := trim (group simpleMatch 1) in
                let title :=
                  if isEmpty (trim (group simpleMatch 2)) then lit "Expense"
                  else trim (group simpleMatch 2) in
                match evaluateMath amountStr with
                | None => ParseError invalidAmountError
                | Some amount =>
                    if leb amount 0 then ParseError invalidAmountError
                    else Parsed amount title
                end
            | None => ParseError unparseableError
            end
        end
    end.

(** ** The data model of [src/types/index.ts] *)

Inductive Category := parts | labor | fees | misc.

Definition Category_eqb (a b : Category) : bool :=
  match a, b with
  | parts, parts | labor, labor | fees, fees | misc, misc => true
  | _, _ => false
  end.

Module Flip.
Record t := mk {
  id : Z;
  year : option Z;
  make : option str;
  model : option str;
  vin : option str;
  miles : option Z;
  buy_price : number;
  sell_price : option number;
  sold_date : option str;
  created_at : str;
  updated_at : str
}.
End Flip.
Abbreviation Flip := Flip.t.

Module LineItem.
Record t := mk {
  id : Z;
  flip_id : Z;
  title : str;
  amount : number;
  category : option Category;
  date : option str;
  created_at : str;
  updated_at : str
}.
End LineItem.
Abbreviation LineItem := LineItem.t.

Record FlipTotals := mkTotals {
  totalCost : number;
  profit : number;
  roi : number
}.

(** ** [src/db/sqlite.ts]: the store and [computeTotals] *)

Record Database := mkDatabase {
  flips_table : list Flip;
  line_items_table : list LineItem
}.

(** A thrown [Error], with its message. *)
Inductive outcome (A : Type) :=
| Return (a : A)
| Throw (message : str).
Arguments Return {A} a.
Arguments Throw {A} message.

(** The order of [ORDER BY] on a [TEXT] column: code unit by code unit. *)
Fixpoint str_leb (a b : str) : bool :=
  match a, b with
  | [], _ => true
  | _ :: _, [] => false
  | x :: a', y :: b' =>
      if (x <? y)%N then true
      else if (y <? x)%N then false
      else str_leb a' b'
  end.

Fixpoint insertRow (x : LineItem) (rows : list LineItem) : list LineItem :=
  match rows with
  | [] => [x]
  | y :: rest =>
      if str_leb (LineItem.created_at y) (LineItem.created_at x)
      then y :: insertRow x rest
      else x :: rows
  end.

(** [ORDER BY created_at ASC]; rows with equal keys stay in table order
    (the engine leaves that order open, and nothing below depends on it). *)
Definition orderByCreatedAt (rows : list LineItem) : list LineItem :=
  fold_left (fun sorted x => insertRow x sorted) rows [].

(** [SELECT * FROM flips WHERE id = ?], first row. *)
Definition getFlipById (db : Database) (id : Z) : option Flip :=
  find (fun f => (Flip.id f =? id)%Z) (flips_table db).

(** [SELECT * FROM line_items WHERE flip_id = ? ORDER BY created_at ASC] *)
Definition getLineItemsByFlip (db : Database) (flipId : Z) : list LineItem :=
  orderByCreatedAt
    (filter (fun i => (LineItem.flip_id i =? flipId)%Z) (line_items_table db)).

Definition flipNotFound : str := lit "Flip not found".

Definition computeTotals (db : Database) (flipId : Z) : outcome FlipTotals :=
  let flip := getFlipById db flipId in
  let lineItems := getLineItemsByFlip db flipId in
  match flip with
  | None => Throw flipNotFound
  | Some flip =>
      let totalCost :=
        fold_left (fun sum item => (sum + LineItem.amount item)%Qc)
                  lineItems 0%Qc in
      let sellPrice := orZero (Flip.sell_price flip) in
      let profit := (sellPrice - (Flip.buy_price flip + totalCost))%Qc in
      let investedAmount := (Flip.buy_price flip + totalCost)%Qc in
      let roi :=
        if ltb 0 investedAmount then (profit / investedAmount)%Qc
        else 0%Qc in
      Return (mkTotals totalCost profit roi)
  end.

(** ** [src/screens/FlipSheet.tsx]: [computeWhatIfTotals] *)

(** The what-if figures are computed from the text of an input field, so
    they can be [NaN], written [None]. *)
Record WhatIfTotals := mkWhatIf {
  whatIf_totalCost : number;
  whatIf_profit : option number;
  whatIf_roi : option number
}.

(** The state of the screen that the function reads. *)
Record FlipSheetState := mkSheet {
  flip : option Flip;
  totals : FlipTotals;
  buyPrice : str;
  whatIfSellPrice : str
}.

(** [a || b] where [a] is a number that may be [NaN] or missing. *)
Definition orElse (a : option number) (b : option number) : option number :=
  match a with
  | Some v => if eqb v 0 then b else Some v
  | None => b
  end.

Definition computeWhatIfTotals (st : FlipSheetState) : WhatIfTotals :=
  let whatIfSellPriceNum : option number :=
    if negb (isEmpty (whatIfSellPrice st)) then parseFloat (whatIfSellPrice st)
    else Some (orZero (match flip st with
                       | Some f => Flip.sell_price f
                       | None => None
                       end)) in
  let buyPriceNum : number :=
    orZero (orElse (option_map Flip.buy_price (flip st))
                   (parseFloat (buyPrice st))) in
  let totalCost := totalCost (totals st) in
  let profit :=
    option_map (fun s => (s - (buyPriceNum + totalCost))%Qc)
               whatIfSellPriceNum in
  let investedAmount := (buyPriceNum + totalCost)%Qc in
  let roi :=
    if ltb 0 investedAmount
    then option_map (fun p => (p / investedAmount)%Qc) profit
    else Some 0%Qc in
  mkWhatIf totalCost profit roi.

(** ** [src/screens/Settings.tsx]: the summary of [exportCompleteTaxReport] *)

Module Summary.
Record t := mk {
  totalFlips : nat;
  totalProfit : number;
  totalLoss : number;
  netGainLoss : number;
  totalExpenses : number;
  totalSales : number;
  totalPurchases : number
}.
End Summary.

Record FlipData := mkFlipData {
  fd_flip : Flip;
  fd_lineItems : list LineItem;
  fd_totals : FlipTotals
}.

Record AllFlipsTaxData := mkAllFlips {
  all_flips : list FlipData;
  all_taxYear : Z;
  all_summary : Summary.t
}.

(** The local variables of the loop over the flips. *)
Record Running := mkRunning {
  flipsData : list FlipData;
  totalSales : number;
  totalPurchases : number;
  totalExpenses : number;
  totalProfit : number;
  totalLoss : number
}.

(** [for (const flip of flips) { ... }]; a throw of [computeTotals] leaves
    the loop. *)
Fixpoint collectFlips (db : Database) (flips : list Flip) (r : Running)
  : outcome Running :=
  match flips with
  | [] => Return r
  | flip :: rest =>
      let lineItems := getLineItemsByFlip db (Flip.id flip) in
      match computeTotals db (Flip.id flip) with
      | Throw e => Throw e
      | Return totals =>
          let r1 :=
            mkRunning
              (flipsData r ++ [mkFlipData flip lineItems totals])
              (totalSales r + orZero (Flip.sell_price flip))%Qc
              (totalPurchases r + Flip.buy_price flip)%Qc
              (totalExpenses r + totalCost totals)%Qc
              (totalProfit r)
              (totalLoss r) in
          let r2 :=
            if ltb 0 (profit totals) then
              mkRunning (flipsData r1) (totalSales r1) (totalPurchases r1)
                        (totalExpenses r1)
                        (totalProfit r1 + profit totals)%Qc
                        (totalLoss r1)
            else
              mkRunning (flipsData r1) (totalSales r1) (totalPurchases r1)
                        (totalExpenses r1)
                        (totalProfit r1)
                        (totalLoss r1 + Math_abs (profit totals))%Qc in
          collectFlips db rest r2
      end
  end.

Inductive ExportOutcome :=
| NoData                                (* the alert 'No flips to export' *)
| ExportFailed (message : str)          (* the [catch] branch *)
| TaxData (data : AllFlipsTaxData).     (* handed to [exportAllFlipsTaxReport] *)

Definition exportCompleteTaxReport (db : Database) (flips : list Flip)
           (currentYear : Z) : ExportOutcome :=
  if (length flips =? 0)%nat then NoData
  else
    match collectFlips db flips (mkRunning [] 0 0 0 0 0)%Qc with
    | Throw e => ExportFailed e
    | Return r =>
        TaxData
          (mkAllFlips
             (flipsData r)
             currentYear
             (Summary.mk (length flips)
                         (totalProfit r)
                         (totalLoss r)
                         (totalProfit r - totalLoss r)%Qc
                         (totalExpenses r)
                         (totalSales r)
                         (totalPurchases r)))
    end.

(** ** [src/utils/taxExport.ts]: the report generators *)

Definition nl : str := [10%N].
Definition tab : str := [9%N].
Definition bullet : str := [8226%N].
Definition checkbox : str := [9633%N].

(** [parts.join(sep)] *)
Fixpoint join (sep : str) (l : list str) : str :=
  match l with
  | [] => []
  | [x] => x
  | x :: rest => x ++ sep ++ join sep rest
  end.

(** [c.repeat(n)] *)
Definition repeatStr (s : str) (n : nat) : str := concat (repeat s n).

Definition toUpperCase (c : char) : char :=
  if (97 <=? c)%N && (c <=? 122)%N then (c - 32)%N else c.

(** [s.charAt(0).toUpperCase() + s.slice(1)], for the ASCII names it is
    applied to. *)
Definition capitalize (s : str) : str :=
  match s with
  | [] => []
  | c :: r => toUpperCase c :: r
  end.

Definition toUpperCaseStr (s : str) : str := map toUpperCase s.

Definition categoryName (c : Category) : str :=
  match c with
  | parts => lit "parts"
  | labor => lit "labor"
  | fees => lit "fees"
  | misc => lit "misc"
  end.

(** [const categories = ['parts', 'labor', 'fees', 'misc']] *)
Definition categories : list Category := [parts; labor; fees; misc].

(** [item.category === category] *)
Definition inCategory (c : Category) (item : LineItem) : bool :=
  match LineItem.category item with
  | Some c' => Category_eqb c' c
  | None => false
  end.

(** [!item.category] *)
Definition uncategorized (item : LineItem) : bool :=
  match LineItem.category item with
  | Some _ => false
  | None => true
  end.

(** [items.reduce((sum, item) => sum + item.amount, 0)] *)
Definition reduceAmounts (items : list LineItem) : number :=
  fold_left (fun sum item => (sum + LineItem.amount item)%Qc) items 0%Qc.

(** A JavaScript object used as a map from strings to numbers; its entries
    are kept in the order in which the keys were first set. *)
Definition Record_ := list (str * number).

Fixpoint getProperty (o : Record_) (k : str) : option number :=
  match o with
  | [] => None
  | (k', v) :: rest => if str_eqb k' k then Some v else getProperty rest k
  end.

Fixpoint setProperty (o : Record_) (k : str) (v : number) : Record_ :=
  match o with
  | [] => [(k, v)]
  | (k', v') :: rest =>
      if str_eqb k' k then (k', v) :: rest
      else (k', v') :: setProperty rest k v
  end.

Record TaxExportData := mkTaxExport {
  te_flip : Flip;
  te_lineItems : list LineItem;
  te_totals : FlipTotals;
  te_taxYear : Z
}.

Section Reports.

(** [formatCurrency] of [src/utils/currency.ts], which is not part of the
    sources at hand, and the formatting builtins of the platform. *)
Variable formatCurrency : number -> str.
(** [new Date(s).toLocaleDateString()] *)
Variable dateStringToLocale : str -> str.
(** [d.toLocaleDateString()] for the time value of the clock *)
Variable toLocaleDateString : Z -> str.
(** [String(n)], [n.toLocaleString()] and [x.toFixed(2)] *)
Variable numberToString : Z -> str.
Variable toLocaleString : Z -> str.
Variable toFixed2 : number -> str.

(** [[flip.year, flip.make, flip.model].filter(Boolean).join(' ')] *)
Definition vehicleName (flip : Flip) : str :=
  join (lit " ")
    ((match Flip.year flip with
      | Some y => if (y =? 0)%Z then [] else [numberToString y]
      | None => []
      end)
     ++ (match Flip.make flip with
         | Some m => if isEmpty m then [] else [m]
         | None => []
         end)
     ++ (match Flip.model flip with
         | Some m => if isEmpty m then [] else [m]
         | None => []
         end)).

Definition orDefault (s : str) (d : str) : str :=
  if isEmpty s then d else s.

Definition vinText (flip : Flip) : str :=
  match Flip.vin flip with
  | Some v => orDefault v (lit "Not provided")
  | None => lit "Not provided"
  end.

Definition milesText (flip : Flip) : str :=
  match Flip.miles flip with
  | Some m => if (m =? 0)%Z then lit "Not provided" else toLocaleString m
  | None => lit "Not provided"
  end.

(** A date field is set when it is a non-empty string. *)
Definition isSet (d : option str) : bool :=
  match d with
  | Some s => negb (isEmpty s)
  | None => false
  end.

Definition itemDate (item : LineItem) : str :=
  match LineItem.date item with
  | Some d => if isEmpty d then lit "Not specified" else dateStringToLocale d
  | None => lit "Not specified"
  end.

(** The lines of the listing for the four named categories. *)
Definition categoryListing (lineItems : list LineItem) : str :=
  concat
    (map (fun category =>
            let categoryItems := filter (inCategory category) lineItems in
            if (0 <? length categoryItems)%nat then
              concat
                (map (fun item =>
                        orDefault (categoryName category) (lit "misc")
                        ++ tab ++ tab ++ LineItem.title item
                        ++ tab ++ tab ++ formatCurrency (LineItem.amount item)
                        ++ tab ++ tab ++ itemDate item ++ nl)
                     categoryItems)
            else [])
         categories).

(** The lines of the items without category. *)
Definition uncategorizedListing (lineItems : list LineItem) : str :=
  let uncategorizedItems := filter uncategorized lineItems in
  concat
    (map (fun item =>
            lit "misc" ++ tab ++ tab ++ LineItem.title item
            ++ tab ++ tab ++ formatCurrency (LineItem.amount item)
            ++ tab ++ tab ++ itemDate item ++ nl)
         uncategorizedItems).

(** The block [EXPENSE SUMMARY BY CATEGORY], after its title. *)
Definition categoryTotals (lineItems : list LineItem) : str :=
  concat
    (map (fun category =>
            let categoryItems := filter (inCategory category) lineItems in
            if (0 <? length categoryItems)%nat then
              let categoryTotal := reduceAmounts categoryItems in
              capitalize (categoryName category) ++ lit ": "
              ++ formatCurrency categoryTotal ++ nl
            else [])
         categories).

Definition uncategorizedTotalLine (lineItems : list LineItem) : str :=
  let uncategorizedItems := filter uncategorized lineItems in
  let uncategorizedTotal := reduceAmounts uncategorizedItems in
  if ltb 0 uncategorizedTotal
  then lit "Miscellaneous: " ++ formatCurrency uncategorizedTotal ++ nl
  else [].

(** [generateTaxExportPDF]; [now] is the time value that [new Date()] reads
    from the clock. *)
Definition generateTaxExportPDF (now : Z) (data : TaxExportData) : str :=
  let flip := te_flip data in
  let lineItems := te_lineItems data in
  let totals := te_totals data in
  let taxYear := te_taxYear data in
  let displayName := orDefault (vehicleName flip) (lit "Vehicle Flip") in
  let shortTermGain :=
    if isSet (Flip.sold_date flip) then profit totals else 0%Qc in
  lit "TAX REPORT - VEHICLE FLIP" ++ nl
  ++ lit "Generated: " ++ toLocaleDateString now ++ nl
  ++ lit "Tax Year: " ++ numberToString taxYear ++ nl
  ++ lit "=================================" ++ nl ++ nl
  ++ lit "VEHICLE INFORMATION:" ++ nl
  ++ lit "Vehicle: " ++ displayName ++ nl
  ++ lit "VIN: " ++ vinText flip ++ nl
  ++ lit "Miles: " ++ milesText flip ++ nl
  ++ lit "Purchase Date: " ++ dateStringToLocale (Flip.created_at flip) ++ nl
  ++ (match Flip.sold_date flip with
      | Some d =>
          if isEmpty d then []
          else lit "Sale Date: " ++ dateStringToLocale d ++ nl
      | None => []
      end)
  ++ nl
  ++ lit "FINANCIAL SUMMARY:" ++ nl
  ++ lit "Purchase Price: " ++ formatCurrency (Flip.buy_price flip) ++ nl
  ++ lit "Sale Price: "
  ++ formatCurrency (orZero (Flip.sell_price flip)) ++ nl
  ++ lit "Total Expenses: " ++ formatCurrency (totalCost totals) ++ nl
  ++ lit "Total Investment: "
  ++ formatCurrency (Flip.buy_price flip + totalCost totals)%Qc ++ nl
  ++ lit "Gross Profit/Loss: " ++ formatCurrency (profit totals) ++ nl
  ++ lit "ROI: " ++ toFixed2 (roi totals * numZ 100)%Qc ++ lit "%" ++ nl
  ++ nl
  ++ lit "TAX IMPLICATIONS:" ++ nl
  ++ lit "Classification: Short-term Capital Gain/Loss (assuming held < 1 year)"
  ++ nl
  ++ lit "Taxable Amount: " ++ formatCurrency shortTermGain ++ nl
  ++ lit "Note: Consult your tax professional for proper treatment" ++ nl
  ++ nl
  ++ lit "DETAILED EXPENSES:" ++ nl
  ++ lit "Category" ++ tab ++ tab ++ lit "Description" ++ tab ++ tab ++ tab
  ++ lit "Amount" ++ tab ++ tab ++ lit "Date" ++ nl
  ++ repeatStr (lit "=") 80 ++ nl
  ++ lit "Purchase" ++ tab ++ tab ++ lit "Vehicle Purchase" ++ tab ++ tab
  ++ formatCurrency (Flip.buy_price flip) ++ tab
  ++ dateStringToLocale (Flip.created_at flip) ++ nl
  ++ categoryListing lineItems
  ++ uncategorizedListing lineItems
  ++ repeatStr (lit "=") 80 ++ nl
  ++ lit "TOTAL EXPENSES: " ++ formatCurrency (totalCost totals) ++ nl
  ++ nl
  ++ lit "EXPENSE SUMMARY BY CATEGORY:" ++ nl
  ++ categoryTotals lineItems
  ++ uncategorizedTotalLine lineItems
  ++ nl
  ++ lit "IMPORTANT NOTES:" ++ nl
  ++ lit "- This report is for tax preparation purposes" ++ nl
  ++ lit "- Consult with a qualified tax professional" ++ nl
  ++ lit "- Keep all receipts and supporting documentation" ++ nl
  ++ lit "- Vehicle flipping may require business license in some jurisdictions"
  ++ nl
  ++ lit "- Consider quarterly estimated tax payments for significant gains"
  ++ nl.

(** The date of an item in the report on all flips, which falls back on the
    creation date. *)
Definition itemDateOrCreated (item : LineItem) : str :=
  match LineItem.date item with
  | Some d =>
      if isEmpty d then dateStringToLocale (LineItem.created_at item)
      else dateStringToLocale d
  | None => dateStringToLocale (LineItem.created_at item)
  end.

Definition itemBullet (item : LineItem) : str :=
  lit "  " ++ bullet ++ lit " " ++ LineItem.title item ++ lit ": "
  ++ formatCurrency (LineItem.amount item)
  ++ lit " (" ++ itemDateOrCreated item ++ lit ")" ++ nl.

(** The block [EXPENSE BREAKDOWN] of one vehicle. *)
Definition expenseBreakdown (lineItems : list LineItem) : str :=
  if (0 <? length lineItems)%nat then
    nl ++ lit "EXPENSE BREAKDOWN:" ++ nl
    ++ concat
         (map (fun category =>
                 let categoryItems := filter (inCategory category) lineItems in
                 if (0 <? length categoryItems)%nat then
                   let categoryTotal := reduceAmounts categoryItems in
                   nl ++ toUpperCaseStr (categoryName category) ++ lit ": "
                   ++ formatCurrency categoryTotal ++ nl
                   ++ concat (map itemBullet categoryItems)
                 else [])
              categories)
    ++ (let uncategorized := filter uncategorized lineItems in
        if (0 <? length uncategorized)%nat then
          let uncategorizedTotal := reduceAmounts uncategorized in
          nl ++ lit "MISCELLANEOUS: " ++ formatCurrency uncategorizedTotal ++ nl
          ++ concat (map itemBullet uncategorized)
        else [])
  else [].

(** The body of [flips.forEach((flipData, index) => ...)]. *)
Definition vehicleSection (index : nat) (flipData : FlipData) : str :=
  let flip := fd_flip flipData in
  let lineItems := fd_lineItems flipData in
  let totals := fd_totals flipData in
  let position := numberToString (Z.of_nat (index + 1)) in
  let displayName :=
    orDefault (vehicleName flip) (lit "Vehicle " ++ position) in
  nl ++ lit "VEHICLE " ++ position ++ lit ": " ++ displayName ++ nl
  ++ repeatStr (lit "-") 50 ++ nl
  ++ lit "Purchase Date: " ++ dateStringToLocale (Flip.created_at flip) ++ nl
  ++ lit "Sale Date: "
  ++ (match Flip.sold_date flip with
      | Some d => if isEmpty d then lit "Not sold" else dateStringToLocale d
      | None => lit "Not sold"
      end) ++ nl
  ++ lit "VIN: " ++ vinText flip ++ nl
  ++ lit "Miles: " ++ milesText flip ++ nl
  ++ nl ++ lit "FINANCIALS:" ++ nl
  ++ lit "Purchase Price: " ++ formatCurrency (Flip.buy_price flip) ++ nl
  ++ lit "Sale Price: "
  ++ formatCurrency (orZero (Flip.sell_price flip)) ++ nl
  ++ lit "Operating Expenses: " ++ formatCurrency (totalCost totals) ++ nl
  ++ lit "Total Investment: "
  ++ formatCurrency (Flip.buy_price flip + totalCost totals)%Qc ++ nl
  ++ lit "Profit/Loss: " ++ formatCurrency (profit totals) ++ nl
  ++ lit "ROI: " ++ toFixed2 (roi totals * numZ 100)%Qc ++ lit "%" ++ nl
  ++ expenseBreakdown lineItems
  ++ nl ++ repeatStr (lit "=") 80 ++ nl.

Fixpoint vehicleSections (index : nat) (flips : list FlipData) : str :=
  match flips with
  | [] => []
  | flipData :: rest =>
      vehicleSection index flipData ++ vehicleSections (S index) rest
  end.

(** [item.category || 'misc'] *)
Definition categoryOrMisc (item : LineItem) : str :=
  match LineItem.category item with
  | Some c => orDefault (categoryName c) (lit "misc")
  | None => lit "misc"
  end.

(** The two nested [forEach] that fill [allExpenses]. *)
Definition addExpense (allExpenses : Record_) (item : LineItem) : Record_ :=
  let category := categoryOrMisc item in
  setProperty allExpenses category
    (match getProperty allExpenses category with
     | Some v => if eqb v 0 then 0%Qc else v
     | None => 0%Qc
     end + LineItem.amount item)%Qc.

Definition combinedExpenses (flips : list FlipData) : Record_ :=
  fold_left
    (fun allExpenses flipData =>
       fold_left addExpense (fd_lineItems flipData) allExpenses)
    flips [].

(** [Object.entries(allExpenses).forEach(([category, total]) => ...)] *)
Definition combinedSummary (flips : list FlipData) : str :=
  concat
    (map (fun entry : str * number =>
            let (category, total) := entry in
            capitalize category ++ lit ": " ++ formatCurrency total ++ nl)
         (combinedExpenses flips)).

(** [generateAllFlipsTaxReport]; [now] is the time value of the clock. *)
Definition generateAllFlipsTaxReport (now : Z) (data : AllFlipsTaxData)
  : str :=
  let flips := all_flips data in
  let taxYear := all_taxYear data in
  let summary := all_summary data in
  lit "COMPLETE TAX REPORT - ALL VEHICLE FLIPS" ++ nl
  ++ lit "Generated: " ++ toLocaleDateString now ++ nl
  ++ lit "Tax Year: " ++ numberToString taxYear ++ nl
  ++ lit "================================================================="
  ++ nl ++ nl
  ++ lit "EXECUTIVE SUMMARY:" ++ nl
  ++ lit "Total Vehicles Flipped: "
  ++ numberToString (Z.of_nat (Summary.totalFlips summary)) ++ nl
  ++ lit "Total Sales Revenue: "
  ++ formatCurrency (Summary.totalSales summary) ++ nl
  ++ lit "Total Purchase Cost: "
  ++ formatCurrency (Summary.totalPurchases summary) ++ nl
  ++ lit "Total Operating Expenses: "
  ++ formatCurrency (Summary.totalExpenses summary) ++ nl
  ++ lit "Net Gain/Loss: " ++ formatCurrency (Summary.netGainLoss summary) ++ nl
  ++ nl
  ++ lit "TAX TREATMENT:" ++ nl
  ++ lit "Business Activity: Vehicle Flipping/Resale" ++ nl
  ++ lit "Classification: Short-term Capital Gains (vehicles typically held < 1 year)"
  ++ nl
  ++ lit "Schedule: Report on Schedule D (Capital Gains and Losses)" ++ nl
  ++ lit "Self-Employment: May require Schedule C if this is a business activity"
  ++ nl ++ nl
  ++ lit "DETAILED VEHICLE-BY-VEHICLE BREAKDOWN:" ++ nl
  ++ repeatStr (lit "=") 80 ++ nl
  ++ vehicleSections 0 flips
  ++ nl ++ lit "COMBINED EXPENSE SUMMARY BY CATEGORY:" ++ nl
  ++ combinedSummary flips
  ++ nl ++ lit "TAX PREPARATION CHECKLIST:" ++ nl
  ++ checkbox ++ lit " Keep all purchase receipts and contracts" ++ nl
  ++ checkbox ++ lit " Keep all sale receipts and contracts" ++ nl
  ++ checkbox ++ lit " Keep all receipts for parts, labor, and fees" ++ nl
  ++ checkbox
  ++ lit " Document any business mileage related to vehicle viewing/transport"
  ++ nl
  ++ checkbox ++ lit " Consider if this activity requires a business license"
  ++ nl
  ++ checkbox
  ++ lit " Determine if you need to make quarterly estimated tax payments"
  ++ nl
  ++ checkbox ++ lit " Consult with a tax professional for proper classification"
  ++ nl
  ++ checkbox
  ++ lit " Consider Schedule C filing if this is a regular business activity"
  ++ nl
  ++ nl ++ lit "IMPORTANT TAX NOTES:" ++ nl
  ++ bullet ++ lit " This report is for tax preparation purposes only" ++ nl
  ++ bullet
  ++ lit " Vehicle flipping may be considered business income vs. capital gains"
  ++ nl
  ++ bullet ++ lit " Consult with a qualified tax professional" ++ nl
  ++ bullet ++ lit " Keep detailed records and receipts for all transactions"
  ++ nl
  ++ bullet ++ lit " Consider sales tax obligations in your state" ++ nl
  ++ bullet
  ++ lit " Some states require dealer licenses for multiple vehicle sales" ++ nl
  ++ bullet
  ++ lit " Report all gains - the IRS may have records of vehicle sales" ++ nl.

End Reports.

(** ** [src/db/sqlite.ts]: the writing operations *)

(** The store with the counters of its two [AUTOINCREMENT] keys: a new row
    gets the successor of the largest key ever used in its table. *)
Record Store := mkStore {
  tables : Database;
  flips_seq : Z;
  line_items_seq : Z
}.

(** The argument of [createFlip]:
    [Omit<Flip, 'id' | 'created_at' | 'updated_at'>]. *)
Module NewFlip.
Record t := mk {
  year : option Z;
  make : option str;
  model : option str;
  vin : option str;
  miles : option Z;
  buy_price : number;
  sell_price : option number;
  sold_date : option str
}.
End NewFlip.

(** The argument of [addLineItem]:
    [Omit<LineItem, 'id' | 'created_at' | 'updated_at'>]. *)
Module NewLineItem.
Record t := mk {
  flip_id : Z;
  title : str;
  amount : number;
  category : option Category;
  date : option str
}.
End NewLineItem.

(** [x || null] on an optional integer, number and string: a missing
    value, [0] and the empty string are stored as [NULL]. *)
Definition intOrNull (x : option Z) : option Z :=
  match x with
  | Some v => if (v =? 0)%Z then None else Some v
  | None => None
  end.

Definition numberOrNull (x : option number) : option number :=
  match x with
  | Some v => if eqb v 0 then None else Some v
  | None => None
  end.

Definition textOrNull (x : option str) : option str :=
  match x with
  | Some s => if isEmpty s then None else Some s
  | None => None
  end.

(** [createFlip]; [now] is the reading of the clock, the result is
    [lastInsertRowId] with the store after the insertion. *)
Definition createFlip (st : Store) (now : str) (flip : NewFlip.t)
  : Z * Store :=
  let id := (flips_seq st + 1)%Z in
  let row :=
    Flip.mk id
            (intOrNull (NewFlip.year flip))
            (textOrNull (NewFlip.make flip))
            (textOrNull (NewFlip.model flip))
            (textOrNull (NewFlip.vin flip))
            (intOrNull (NewFlip.miles flip))
            (NewFlip.buy_price flip)
            (numberOrNull (NewFlip.sell_price flip))
            (textOrNull (NewFlip.sold_date flip))
            now now in
  (id,
   mkStore (mkDatabase (flips_table (tables st) ++ [row])
                       (line_items_table (tables st)))
           id (line_items_seq st)).

(** [addLineItem].  The row is inserted whether or not its flip is stored,
    as the engine does while foreign keys are not switched on; the
    properties below are about stored flips. *)
Definition addLineItem (st : Store) (now : str) (lineItem : NewLineItem.t)
  : Z * Store :=
  let id := (line_items_seq st + 1)%Z in
  let row :=
    LineItem.mk id
                (NewLineItem.flip_id lineItem)
                (NewLineItem.title lineItem)
                (NewLineItem.amount lineItem)
                (NewLineItem.category lineItem)
                (textOrNull (NewLineItem.date lineItem))
                now now in
  (id,
   mkStore (mkDatabase (flips_table (tables st))
                       (line_items_table (tables st) ++ [row]))
           (flips_seq st) id).

(** [deleteLineItem]: [DELETE FROM line_items WHERE id = ?] *)
Definition deleteLineItem (st : Store) (id : Z) : Store :=
  mkStore (mkDatabase (flips_table (tables st))
                      (filter (fun i => negb (LineItem.id i =? id)%Z)
                              (line_items_table (tables st))))
          (flips_seq st) (line_items_seq st).

(** ** [src/state/FlipsContext.tsx]: [duplicateFlip] *)

(** [for (const item of lineItems) { await db.addLineItem({...}) }]; the
    [k]-th writing reads the clock as [clock k]. *)
Fixpoint copyLineItems (st : Store) (clock : nat -> str) (k : nat)
         (newFlipId : Z) (lineItems : list LineItem) : Store :=
  match lineItems with
  | [] => st
  | item :: rest =>
      let st' :=
        snd (addLineItem st (clock k)
               (NewLineItem.mk newFlipId
                               (LineItem.title item)
                               (LineItem.amount item)
                               (LineItem.category item)
                               (LineItem.date item))) in
      copyLineItems st' clock (S k) newFlipId rest
  end.

(** [duplicateFlip]; the list of flips of the context, which the function
    reloads at its end, is not part of the store. *)
Definition duplicateFlip (st : Store) (clock : nat -> str) (id : Z)
  : outcome (Z * Store) :=
  match getFlipById (tables st) id with
  | None => Throw flipNotFound
  | Some originalFlip =>
      let lineItems := getLineItemsByFlip (tables st) id in
      let (newFlipId, st1) :=
        createFlip st (clock 0%nat)
          (NewFlip.mk (Flip.year originalFlip)
                      (Flip.make originalFlip)
                      (Flip.model originalFlip)
                      (Flip.vin originalFlip)
                      (Flip.miles originalFlip)
                      (Flip.buy_price originalFlip)
                      None None) in
      Return (newFlipId, copyLineItems st1 clock 1 newFlipId lineItems)
  end.

(** ** [src/screens/Settings.tsx]: [exportTaxReportForFlip] *)


(** ** [src/utils/taxExport.ts]: the name of the report file *)

(** [s.replace(/\s+/g, '_')]: every maximal run of white space becomes one
    underscore; [inRun] tells that the previous character was white
    space. *)
Fixpoint underscoreRuns (inRun : bool) (s : str) : str :=
  match s with
  | [] => []
  | c :: r =>
      if isSpace c then
        if inRun then underscoreRuns true r
        else chr "_" :: underscoreRuns true r
      else c :: underscoreRuns false r
  end.

(** The [fileName] of [exportTaxReport]. *)
Definition taxReportFileName (numberToString : Z -> str)
           (data : TaxExportData) : str :=
  let displayName :=
    orDefault (vehicleName numberToString (te_flip data)) (lit "Vehicle") in
  underscoreRuns false displayName
  ++ lit "_Tax_Report_" ++ numberToString (te_taxYear data) ++ lit ".txt".

(** ** [src/utils/dates.ts]: [getDaysToSell] *)

(** [Math.ceil] *)
Definition Math_ceil (x : number) : Z := Qceiling x.

Section Dates.

(** [new Date(s).getTime()]: the time value of a date string in
    milliseconds, [None] ([NaN]) when the string is not a date. *)
Variable getTime : str -> option Z.

(** The result is [None] for [null], [Some None] for [NaN]. *)
Definition getDaysToSell (createdAt : str) (soldDate : option str)
  : option (option Z) :=
  match soldDate with
  | None => None
  | Some soldDate =>
      if isEmpty soldDate then None
      else
        match getTime createdAt, getTime soldDate with
        | Some created, Some sold =>
            let diffTime := (sold - created)%Z in
            let diffDays :=
              Math_ceil (numZ diffTime / numZ (1000 * 60 * 60 * 24))%Qc in
            Some (Some diffDays)
        | _, _ => Some None
        end
  end.

End Dates.

(** ** [src/screens/Home.tsx]: the list of the flips *)

Inductive Tab := open | sold.

(** [filteredFlips] *)
Definition filteredFlips (flips : list Flip) (selectedTab : Tab)
  : list Flip :=
  filter (fun flip =>
            match selectedTab with
            | sold => isSet (Flip.sold_date flip)
            | open => negb (isSet (Flip.sold_date flip))
            end)
         flips.

(** The state [flipTotals], a [Record<number, any>] that is only read by
    key. *)
Definition TotalsRecord := list (Z * FlipTotals).

Fixpoint getTotals (o : TotalsRecord) (k : Z) : option FlipTotals :=
  match o with
  | [] => None
  | (k', v) :: rest => if (k' =? k)%Z then Some v else getTotals rest k
  end.

Fixpoint setTotals (o : TotalsRecord) (k : Z) (v : FlipTotals)
  : TotalsRecord :=
  match o with
  | [] => [(k, v)]
  | (k', v') :: rest =>
      if (k' =? k)%Z then (k', v) :: rest
      else (k', v') :: setTotals rest k v
  end.

(** [loadFlipTotals]: the record that it hands to [setFlipTotals]; a throw
    of [computeTotals] is caught inside the loop. *)
Definition loadFlipTotals (db : Database) (flips : list Flip)
  : TotalsRecord :=
  fold_left
    (fun totals flip =>
       match computeTotals db (Flip.id flip) with
       | Return totalsData => setTotals totals (Flip.id flip) totalsData
       | Throw _ => totals
       end)
    flips [].

(** ** [src/state/FlipsContext.tsx]: [loadSampleData] *)

(** [const sampleItems = [...]] *)
Definition sampleItems : list (str * number * Category) :=
  [ (lit "water pump", numZ 320, parts);
    (lit "thermostat", numZ 95, parts);
    (lit "OFHG", numZ 45, parts);
    (lit "cooling system labor", numZ 350, labor);
    (lit "title/tax", numZ 120, fees);
    (lit "listing fees", numZ 100, fees) ].

(** [for (const item of sampleItems) { await addLineItem({...}) }] *)
Fixpoint addSampleItems (st : Store) (clock : nat -> str) (k : nat)
         (flipId : Z) (items : list (str * number * Category)) : Store :=
  match items with
  | [] => st
  | (title, amount, category) :: rest =>
      let st' :=
        snd (addLineItem st (clock k)
               (NewLineItem.mk flipId title amount (Some category) None)) in
      addSampleItems st' clock (S k) flipId rest
  end.

(** [loadSampleData]; the clock is read first for the sale date of the
    flip, then by every writing. *)
Definition loadSampleData (st : Store) (clock : nat -> str) : Z * Store :=
  let (flipId, st1) :=
    createFlip st (clock 1%nat)
      (NewFlip.mk (Some 2011%Z) (Some (lit "BMW")) (Some (lit "328i")) None
                  (Some 155000%Z) (numZ 3500) (Some (numZ 6200))
                  (Some (clock 0%nat))) in
  (flipId, addSampleItems st1 clock 2 flipId sampleItems).

(** * Specification-side definitions *)

(** The sum of [f x] over a list, written the way the specification reads:
    a sum, with no order of evaluation. *)
Fixpoint sumOf (A : Type) (f : A -> number) (l : list A) : number :=
  match l with
  | [] => 0%Qc
  | x :: rest => (f x + sumOf f rest)%Qc
  end.

(** [max(x, 0)] *)
Definition positivePart (x : number) : number :=
  if ltb 0 x then x else 0%Qc.

(** The line items of a flip, as rows of the table. *)
Definition itemsOfFlip (db : Database) (flipId : Z) : list LineItem :=
  filter (fun i => (LineItem.flip_id i =? flipId)%Z) (line_items_table db).

(** Sample data: the flip of [loadSampleData], first without line items. *)
Definition sampleFlip : Flip :=
  Flip.mk 1 (Some 2011%Z) (Some (lit "BMW")) (Some (lit "328i")) None
          (Some 155000%Z) (numZ 3500) (Some (numZ 6200)) None
          (lit "2024-03-01T10:00:00.000Z") (lit "2024-03-01T10:00:00.000Z").

Definition sampleDb : Database := mkDatabase [sampleFlip] [].

(** The screen of that flip with a what-if sale price of 7000. *)
Definition sampleSheet : FlipSheetState :=
  mkSheet (Some sampleFlip)
          (mkTotals 0%Qc (numZ 2700) (numZ 2700 / numZ 3500)%Qc)
          (lit "3500") (lit "7000").

(** Three flips without line items and with profits 100, -50 and 30. *)
Definition plainFlip (id : Z) (buy sell : Z) : Flip :=
  Flip.mk id None None None None None (numZ buy) (Some (numZ sell)) None
          (lit "2024-03-01T10:00:00.000Z") (lit "2024-03-01T10:00:00.000Z").

Definition threeFlips : list Flip :=
  [plainFlip 1 100 200; plainFlip 2 100 50; plainFlip 3 70 100].

Definition threeFlipsDb : Database := mkDatabase threeFlips [].








Section ReportSpecification.

Variable formatCurrency : number -> str.
Variable dateStringToLocale : str -> str.



End ReportSpecification.

(** A formatting environment for the examples: amounts print as their
    numerator and denominator, the clock as its day number. *)
Definition showZ (z : Z) : str := lit (NilEmpty.string_of_int (Z.to_int z)).

Definition showNumber (x : number) : str :=
  showZ (Qnum x) ++ lit "/" ++ showZ (Zpos (Qden x)).

Definition showDay (ms : Z) : str := lit "day " ++ showZ (ms / 86400000).

Definition sampleExport : TaxExportData :=
  mkTaxExport sampleFlip [] (mkTotals 0%Qc (numZ 2700) (numZ 2700 / numZ 3500)%Qc)
              2026.

Definition sampleAllFlips : AllFlipsTaxData :=
  mkAllFlips [] 2026 (Summary.mk 0 0 0 0 0 0 0)%Qc.

(** The three grammars of the quick entry, in the order of the attempts. *)
Inductive Grammar := Labeled | Spaced | Fallback.

Definition grammarPattern (g : Grammar) : regex :=
  match g with
  | Labeled => dollarPattern
  | Spaced => numberPattern
  | Fallback => simplePattern
  end.

(** The result for a numeric segment and a title that is not empty. *)
Definition amountResult (amountStr title : str) : ParseResult :=
  match evaluateMath amountStr with
  | None => ParseError invalidAmountError
  | Some amount =>
      if leb amount 0 then ParseError invalidAmountError
      else Parsed amount title
  end.

(** The result that a grammar gives for the groups of its match. *)
Definition grammarResult (g : Grammar) (m : list str) : ParseResult :=
  let amountStr := trim (group m 1) in
  let title := trim (group m 2) in
  match g with
  | Fallback =>
      amountResult amountStr (if isEmpty title then lit "Expense" else title)
  | Labeled | Spaced =>
      if isEmpty title then ParseError emptyTitleError
      else amountResult amountStr title
  end.

(** Ordered choice: the first grammar of the list that matches decides. *)
Fixpoint firstMatch (gs : list Grammar) (trimmed : str) : ParseResult :=
  match gs with
  | [] => ParseError unparseableError
  | g :: rest =>
      match exec (grammarPattern g) trimmed with
      | Some m => grammarResult g m
      | None => firstMatch rest trimmed
      end
  end.


Definition isOperator (c : char) : bool := isPlusMinus c || isTimesDiv c.

Definition isDigitOrPoint (c : char) : bool := isDigit c || isChar "." c.


(** How a regex cuts a string: one piece per node. *)
Definition pieceOk (n : node) (piece : str) : Prop :=
  Forall (fun c => cls n c = true) piece
  /\ match qt n with
     | Once => length piece = 1
     | Optional => length piece <= 1
     | Star => True
     | Plus => 1 <= length piece
     end.

Fixpoint captured (r : regex) (pieces : list str) : list str :=
  match r, pieces with
  | n :: r', p :: pieces' =>
      if capture n then p :: captured r' pieces' else captured r' pieces'
  | _, _ => []
  end.

(** ** Arithmetic expressions and their value *)

























(** ** The store, the matcher and the entries of the quick entry *)

(** The head of a string is outside a class (or there is no head). *)
Definition stopsAt (p : char -> bool) (s : str) : Prop :=
  match s with
  | [] => True
  | c :: _ => p c = false
  end.

(** What follows the amount in the labeled pattern:
    [\s*-\s*(.+)$]. *)
Definition labelTail : regex :=
  [ Node isSpace Star false;
    Node (isChar "-") Once false;
    Node isSpace Star false;
    Node isDot Plus true ].

(** No hyphen of [t] can end an amount: each one comes after a character
    that no amount can contain. *)
Definition hyphensInsideText (t : str) : Prop :=
  forall w rest, t = w ++ chr "-" :: rest ->
                 Exists (fun c => isMathSpace c = false) w.

(** The keys of a store are in order: every key is unique and at most the
    counter of its table, and no line item names a flip that was never
    created. *)
Definition wfStore (st : Store) : Prop :=
  Forall (fun f => (Flip.id f <= flips_seq st)%Z) (flips_table (tables st))
  /\ NoDup (map Flip.id (flips_table (tables st)))
  /\ Forall (fun i => (LineItem.id i <= line_items_seq st)%Z
                      /\ (LineItem.flip_id i <= flips_seq st)%Z)
            (line_items_table (tables st))
  /\ NoDup (map LineItem.id (line_items_table (tables st))).

(** What [duplicateFlip] copies of a line item. *)
Definition itemContent (i : LineItem)
  : str * number * option Category * option str :=
  (LineItem.title i, LineItem.amount i, LineItem.category i,
   textOrNull (LineItem.date i)).

(** A store with one flip and two line items. *)
Definition sampleStore : Store :=
  mkStore
    (mkDatabase
       [sampleFlip]
       [LineItem.mk 1 1 (lit "water pump") (numZ 320) (Some parts) None
                    (lit "2024-03-02T09:00:00.000Z")
                    (lit "2024-03-02T09:00:00.000Z");
        LineItem.mk 2 1 (lit "title/tax") (numZ 120) (Some fees) None
                    (lit "2024-03-03T09:00:00.000Z")
                    (lit "2024-03-03T09:00:00.000Z")])
    1 2.

(** * Properties *)

(** ** Numbers *)

(** Closed goals are settled by evaluation; two canonical fractions are
    equal when their numerators and denominators are. *)
Ltac by_evaluation :=
  vm_compute;
  repeat (first [ reflexivity
                | apply Qc_is_canon; reflexivity
                | f_equal ]).

Lemma ltb_lt (x y : number) : ltb x y = true <-> (x < y)%Qc.
Proof.
  unfold ltb, Qclt. rewrite negb_true_iff.
  split; intro H.
  - apply Qnot_le_lt. intro L. apply Qle_bool_iff in L. congruence.
  - destruct (Qle_bool y x) eqn:E; [|reflexivity].
    apply Qle_bool_iff in E. exfalso. apply (Qlt_not_le _ _ H). exact E.
Qed.

Lemma ltb_ge (x y : number) : ltb x y = false <-> (y <= x)%Qc.
Proof.
  unfold ltb, Qcle. rewrite negb_false_iff. apply Qle_bool_iff.
Qed.

Lemma leb_le (x y : number) : leb x y = true <-> (x <= y)%Qc.
Proof. unfold leb, Qcle. apply Qle_bool_iff. Qed.

Lemma leb_gt (x y : number) : leb x y = false <-> (y < x)%Qc.
Proof.
  rewrite <- ltb_lt. unfold ltb, leb. destruct (Qle_bool x y); simpl; intuition congruence.
Qed.

Lemma eqb_eq (x y : number) : eqb x y = true <-> x = y.
Proof.
  unfold eqb. rewrite Qeq_bool_iff. split; intro H.
  - apply Qc_is_canon. exact H.
  - rewrite H. reflexivity.
Qed.

Lemma sumOf_app (A : Type) (f : A -> number) (l1 l2 : list A) :
  sumOf f (l1 ++ l2) = (sumOf f l1 + sumOf f l2)%Qc.
Proof.
  induction l1 as [|x l1 IH]; simpl.
  - ring.
  - rewrite IH. ring.
Qed.

Lemma sumOf_Permutation (A : Type) (f : A -> number) (l1 l2 : list A) :
  Permutation l1 l2 -> sumOf f l1 = sumOf f l2.
Proof.
  induction 1; simpl.
  - reflexivity.
  - congruence.
  - ring.
  - congruence.
Qed.

(** The accumulating loop of [reduce] computes the sum. *)
Lemma fold_left_sumOf (A : Type) (f : A -> number) (l : list A) (acc : number) :
  fold_left (fun sum x => (sum + f x)%Qc) l acc = (acc + sumOf f l)%Qc.
Proof.
  revert acc. induction l as [|x l IH]; intro acc; simpl.
  - ring.
  - rewrite IH. ring.
Qed.


(** ** The store *)

Lemma insertRow_Permutation (x : LineItem) (rows : list LineItem) :
  Permutation (insertRow x rows) (x :: rows).
Proof.
  induction rows as [|y rows IH]; simpl.
  - apply Permutation_refl.
  - destruct (str_leb _ _).
    + eapply perm_trans; [apply perm_skip; exact IH | apply perm_swap].
    + apply Permutation_refl.
Qed.

Lemma orderByCreatedAt_Permutation (rows : list LineItem) :
  Permutation (orderByCreatedAt rows) rows.
Proof.
  unfold orderByCreatedAt.
  assert (G : forall acc, Permutation (fold_left (fun sorted x => insertRow x sorted) rows acc) (acc ++ rows)).
  { induction rows as [|x rows IH]; intro acc; simpl.
    - rewrite app_nil_r. apply Permutation_refl.
    - eapply perm_trans; [apply IH|].
      eapply perm_trans; [apply Permutation_app_tail, insertRow_Permutation|].
      simpl. apply Permutation_middle. }
  apply (G []).
Qed.

Lemma getLineItemsByFlip_Permutation (db : Database) (flipId : Z) :
  Permutation (getLineItemsByFlip db flipId) (itemsOfFlip db flipId).
Proof. apply orderByCreatedAt_Permutation. Qed.

(** What [computeTotals] returns for a stored flip. *)
Lemma computeTotals_stored (db : Database) (flipId : Z) (f : Flip) :
  getFlipById db flipId = Some f ->
  computeTotals db flipId =
    Return
      (let T := sumOf LineItem.amount (itemsOfFlip db flipId) in
       let invested := (Flip.buy_price f + T)%Qc in
       let p := (orZero (Flip.sell_price f) - invested)%Qc in
       mkTotals T p (if ltb 0 invested then (p / invested)%Qc else 0%Qc)).
Proof.
  intro H. unfold computeTotals. rewrite H. cbv zeta.
  rewrite fold_left_sumOf.
  rewrite (sumOf_Permutation _ (getLineItemsByFlip_Permutation db flipId)).
  replace (0 + sumOf LineItem.amount (itemsOfFlip db flipId))%Qc
    with (sumOf LineItem.amount (itemsOfFlip db flipId)) by ring.
  reflexivity.
Qed.

(** C1. For a stored flip with buy price [B], sell price [S] ([0] when it is
    not set) and line items whose amounts sum to [T], [computeTotals]
    returns [totalCost = T], [profit = S - (B + T)], and
    [roi = profit / (B + T)] when [B + T > 0], [roi = 0] otherwise; with no
    line item the total cost is [0] and the ROI is [(S - B) / B] or [0]:
    the division is only made by a positive amount. *)
Theorem computeTotals_formulas (db : Database) (flipId : Z) (f : Flip) :
  getFlipById db flipId = Some f ->
  let B := Flip.buy_price f in
  let S := orZero (Flip.sell_price f) in
  let T := sumOf LineItem.amount (itemsOfFlip db flipId) in
  exists t : FlipTotals,
    computeTotals db flipId = Return t
    /\ totalCost t = T
    /\ profit t = (S - (B + T))%Qc
    /\ ((0 < B + T)%Qc -> roi t = (profit t / (B + T))%Qc)
    /\ ((B + T <= 0)%Qc -> roi t = 0%Qc)
    /\ (itemsOfFlip db flipId = [] ->
        totalCost t = 0%Qc
        /\ profit t = (S - B)%Qc
        /\ ((0 < B)%Qc -> roi t = ((S - B) / B)%Qc)
        /\ ((B <= 0)%Qc -> roi t = 0%Qc)).
Proof.
  intros H B S T.
  rewrite (computeTotals_stored _ _ H). cbv zeta.
  fold B S T.
  eexists. split; [reflexivity|]. simpl.
  split; [reflexivity|]. split; [reflexivity|].
  split; [|split].
  - intro P. apply ltb_lt in P. rewrite P. reflexivity.
  - intro P. apply ltb_ge in P. rewrite P. reflexivity.
  - intro E. unfold T. rewrite E. simpl.
    replace (B + 0)%Qc with B by ring.
    split; [reflexivity|]. split; [reflexivity|]. split.
    + intro P. apply ltb_lt in P. rewrite P. reflexivity.
    + intro P. apply ltb_ge in P. rewrite P. reflexivity.
Qed.

Lemma sampleDb_stores_sampleFlip : getFlipById sampleDb 1 = Some sampleFlip.
Proof. reflexivity. Qed.

Lemma computeTotals_formulas_witness :
  getFlipById sampleDb 1 = Some sampleFlip
  /\ exists t : FlipTotals,
      computeTotals sampleDb 1 = Return t
      /\ totalCost t = 0%Qc
      /\ profit t = (numZ 6200 - (numZ 3500 + 0))%Qc.
Proof.
  split; [reflexivity|].
  destruct (computeTotals_formulas sampleDb 1 sampleDb_stores_sampleFlip)
    as [t [E [C [P _]]]].
  exists t. split; [exact E|]. split; [exact C | exact P].
Defined.

(** ** The what-if figures *)

(** C9. With a loaded flip of non-zero buy price [B], current total cost
    [T] and a hypothetical sell price [S'] (the number that the what-if
    field reads as, or the sell price of the flip, [0] if unset, when the
    field is empty), the what-if computation returns
    [{T, S' - (B + T), roi}] with [roi = profit / (B + T)] when
    [B + T > 0] and [0] otherwise, and this is what [computeTotals] returns
    on any store where the flip has the same buy price and line-item total
    and the sell price [S']. *)
Theorem computeWhatIfTotals_formulas (st : FlipSheetState) (f : Flip) (S' : number) :
  flip st = Some f ->
  Flip.buy_price f <> 0%Qc ->
  (isEmpty (whatIfSellPrice st) = false
   /\ parseFloat (whatIfSellPrice st) = Some S')
  \/ (isEmpty (whatIfSellPrice st) = true
      /\ S' = orZero (Flip.sell_price f)) ->
  let B := Flip.buy_price f in
  let T := totalCost (totals st) in
  computeWhatIfTotals st =
    mkWhatIf T (Some (S' - (B + T))%Qc)
             (Some (if ltb 0 (B + T) then ((S' - (B + T)) / (B + T))%Qc
                    else 0%Qc))
  /\ forall (db : Database) (flipId : Z) (f' : Flip),
      getFlipById db flipId = Some f' ->
      Flip.buy_price f' = B ->
      Flip.sell_price f' = Some S' ->
      sumOf LineItem.amount (itemsOfFlip db flipId) = T ->
      exists t : FlipTotals,
        computeTotals db flipId = Return t
        /\ computeWhatIfTotals st =
             mkWhatIf (totalCost t) (Some (profit t)) (Some (roi t)).
Proof.
  intros Hf HB HS B T.
  assert (W : computeWhatIfTotals st =
    mkWhatIf T (Some (S' - (B + T))%Qc)
             (Some (if ltb 0 (B + T) then ((S' - (B + T)) / (B + T))%Qc
                    else 0%Qc))).
  { assert (Z0 : eqb B 0 = false).
    { destruct (eqb B 0) eqn:E; [|reflexivity].
      apply eqb_eq in E. contradiction. }
    unfold computeWhatIfTotals.
    destruct HS as [[HE HP]|[HE ->]]; rewrite HE, Hf; cbn [negb];
      [rewrite HP|]; simpl; fold B T; rewrite Z0; simpl;
      destruct (ltb 0 (B + T)); reflexivity. }
  split; [exact W|].
  intros db flipId f' G HB' HS' HT.
  rewrite (computeTotals_stored _ _ G). cbv zeta.
  eexists. split; [reflexivity|]. simpl.
  rewrite W, HB', HS', HT. reflexivity.
Qed.

Lemma computeWhatIfTotals_formulas_witness :
  computeWhatIfTotals sampleSheet =
    mkWhatIf 0%Qc (Some (numZ 7000 - (numZ 3500 + 0))%Qc)
             (Some (if ltb 0 (numZ 3500 + 0)
                    then ((numZ 7000 - (numZ 3500 + 0)) / (numZ 3500 + 0))%Qc
                    else 0%Qc)).
Proof.
  refine (proj1 (@computeWhatIfTotals_formulas sampleSheet sampleFlip (numZ 7000)
                   eq_refl _ _)).
  - discriminate.
  - left. split; [reflexivity | by_evaluation].
Defined.

(** ** The summary of the report on all flips *)

Lemma Math_abs_nonpos (p : number) : (p <= 0)%Qc -> Math_abs p = (- p)%Qc.
Proof.
  intro H. unfold Math_abs. destruct (ltb p 0) eqn:E; [reflexivity|].
  apply ltb_ge in E. rewrite (Qcle_antisym _ _ H E). reflexivity.
Qed.

Lemma positivePart_opp_nonpos (p : number) :
  (p <= 0)%Qc -> positivePart (- p) = (- p)%Qc.
Proof.
  intro H. unfold positivePart. destruct (ltb 0 (- p)) eqn:E; [reflexivity|].
  apply ltb_ge in E. apply Qcopp_le_compat in E.
  rewrite Qcopp_involutive in E.
  rewrite (Qcle_antisym _ _ H E). reflexivity.
Qed.

Lemma positivePart_opp_pos (p : number) :
  (0 < p)%Qc -> positivePart (- p) = 0%Qc.
Proof.
  intro H. unfold positivePart.
  assert (E : ltb 0 (- p) = false).
  { apply ltb_ge. apply Qclt_le_weak in H. apply Qcopp_le_compat in H.
    exact H. }
  rewrite E. reflexivity.
Qed.

(** What one round of the loop adds to the running totals. *)
Lemma collectFlips_sums (db : Database) (flips : list Flip) (r r' : Running) :
  collectFlips db flips r = Return r' ->
  exists fds : list FlipData,
    flipsData r' = flipsData r ++ fds
    /\ map fd_flip fds = flips
    /\ Forall (fun fd => computeTotals db (Flip.id (fd_flip fd))
                         = Return (fd_totals fd)) fds
    /\ totalSales r' =
         (totalSales r + sumOf (fun f => orZero (Flip.sell_price f)) flips)%Qc
    /\ totalPurchases r' = (totalPurchases r + sumOf Flip.buy_price flips)%Qc
    /\ totalExpenses r' =
         (totalExpenses r + sumOf (fun fd => totalCost (fd_totals fd)) fds)%Qc
    /\ totalProfit r' =
         (totalProfit r
          + sumOf (fun fd => positivePart (profit (fd_totals fd))) fds)%Qc
    /\ totalLoss r' =
         (totalLoss r
          + sumOf (fun fd => positivePart (- profit (fd_totals fd))) fds)%Qc.
Proof.
  revert r. induction flips as [|f flips IH]; intros r H; simpl in H.
  - injection H as <-. exists []. rewrite app_nil_r. simpl.
    repeat split; try constructor; ring.
  - destruct (computeTotals db (Flip.id f)) as [t|e] eqn:E; [|discriminate].
    apply IH in H. destruct H as [fds [D [M [F [S1 [S2 [S3 [S4 S5]]]]]]]].
    exists (mkFlipData f (getLineItemsByFlip db (Flip.id f)) t :: fds).
    destruct (ltb 0 (profit t)) eqn:P; simpl in *.
    + apply ltb_lt in P.
      rewrite D, S1, S2, S3, S4, S5, M, <- app_assoc.
      unfold positivePart at 2. rewrite (proj2 (ltb_lt _ _) P).
      rewrite (positivePart_opp_pos P).
      repeat split; try (constructor; assumption); ring.
    + apply ltb_ge in P.
      rewrite D, S1, S2, S3, S4, S5, M, <- app_assoc.
      unfold positivePart at 2. rewrite (proj2 (ltb_ge _ _) P).
      rewrite (positivePart_opp_nonpos P), (Math_abs_nonpos P).
      repeat split; try (constructor; assumption); ring.
Qed.

(** The loop ends normally when every flip of the list is in the store. *)
Lemma collectFlips_returns (db : Database) (flips : list Flip) (r : Running) :
  (forall f, In f flips -> getFlipById db (Flip.id f) <> None) ->
  exists r', collectFlips db flips r = Return r'.
Proof.
  revert r. induction flips as [|f flips IH]; intros r H; simpl.
  - eauto.
  - destruct (getFlipById db (Flip.id f)) as [g|] eqn:G.
    + rewrite (computeTotals_stored _ _ G). cbv zeta.
      apply IH. intros f' I. apply H. right. exact I.
    + exfalso. apply (H f); [left; reflexivity | exact G].
Qed.

(** C8. For a non-empty list of flips that are all in the store, the
    summary handed to the report on all flips has: total sales, the sum of
    the sell prices ([0] when unset); total purchases, the sum of the buy
    prices; total expenses, the sum of the per-flip total costs; total
    profit, the sum of [max(profit, 0)]; total loss, the sum of
    [max(-profit, 0)]; net gain/loss, total profit minus total loss.  With
    per-flip profits [100, -50, 30] these are 130, 50 and 80. *)
Theorem exportCompleteTaxReport_summary (db : Database) (flips : list Flip) (currentYear : Z) :
  flips <> [] ->
  (forall f, In f flips -> getFlipById db (Flip.id f) <> None) ->
  exists data : AllFlipsTaxData,
    exportCompleteTaxReport db flips currentYear = TaxData data
    /\ map fd_flip (all_flips data) = flips
    /\ Forall (fun fd => computeTotals db (Flip.id (fd_flip fd))
                         = Return (fd_totals fd)) (all_flips data)
    /\ let s := all_summary data in
       let perFlip := map fd_totals (all_flips data) in
       Summary.totalSales s =
         sumOf (fun f => orZero (Flip.sell_price f)) flips
       /\ Summary.totalPurchases s = sumOf Flip.buy_price flips
       /\ Summary.totalExpenses s = sumOf totalCost perFlip
       /\ Summary.totalProfit s =
            sumOf (fun t => positivePart (profit t)) perFlip
       /\ Summary.totalLoss s =
            sumOf (fun t => positivePart (- profit t)) perFlip
       /\ Summary.netGainLoss s =
            (Summary.totalProfit s - Summary.totalLoss s)%Qc
       /\ (map profit perFlip = [numZ 100; numZ (-50); numZ 30] ->
           Summary.totalProfit s = numZ 130
           /\ Summary.totalLoss s = numZ 50
           /\ Summary.netGainLoss s = numZ 80).
Proof.
  intros NE H. unfold exportCompleteTaxReport.
  destruct flips as [|f0 fl] eqn:EF; [contradiction|]. rewrite <- EF in *.
  replace (length flips =? 0)%nat with false by (rewrite EF; reflexivity).
  destruct (collectFlips_returns db flips (mkRunning [] 0 0 0 0 0)%Qc H) as [r E].
  rewrite E.
  destruct (collectFlips_sums _ _ _ E) as [fds [D [M [F [S1 [S2 [S3 [S4 S5]]]]]]]].
  simpl in D. subst fds.
  eexists. split; [reflexivity|]. simpl.
  split; [exact M|]. split; [exact F|].
  assert (sumMap : forall (g : FlipTotals -> number) l,
             sumOf g (map fd_totals l) = sumOf (fun fd => g (fd_totals fd)) l).
  { intros g l. induction l as [|x l IH]; simpl; congruence. }
  rewrite !sumMap.
  rewrite S1, S2, S3, S4, S5. simpl.
  repeat split; try ring.
  - rewrite map_map in H0.
    destruct (flipsData r) as [|a [|b [|c [|d l]]]]; try discriminate.
    simpl in H0. injection H0 as Ha Hb Hc. simpl. rewrite Ha, Hb, Hc.
    by_evaluation.
  - rewrite map_map in H0.
    destruct (flipsData r) as [|a [|b [|c [|d l]]]]; try discriminate.
    simpl in H0. injection H0 as Ha Hb Hc. simpl. rewrite Ha, Hb, Hc.
    by_evaluation.
  - rewrite map_map in H0.
    destruct (flipsData r) as [|a [|b [|c [|d l]]]]; try discriminate.
    simpl in H0. injection H0 as Ha Hb Hc. simpl. rewrite Ha, Hb, Hc.
    by_evaluation.
Qed.

Lemma threeFlips_stored :
  forall f, In f threeFlips -> getFlipById threeFlipsDb (Flip.id f) <> None.
Proof.
  intros f [<-|[<-|[<-|[]]]]; discriminate.
Qed.

Lemma exportCompleteTaxReport_summary_witness :
  threeFlips <> []
  /\ exists data : AllFlipsTaxData,
      exportCompleteTaxReport threeFlipsDb threeFlips 2026 = TaxData data
      /\ map profit (map fd_totals (all_flips data))
         = [numZ 100; numZ (-50); numZ 30]
      /\ Summary.totalProfit (all_summary data) = numZ 130
      /\ Summary.totalLoss (all_summary data) = numZ 50
      /\ Summary.netGainLoss (all_summary data) = numZ 80.
Proof.
  split; [discriminate|].
  destruct (@exportCompleteTaxReport_summary threeFlipsDb threeFlips 2026)
    as [data [E [_ [_ [_ [_ [_ [_ [_ [_ P]]]]]]]]]].
  - discriminate.
  - exact threeFlips_stored.
  - exists data. split; [exact E|].
    assert (M : map profit (map fd_totals (all_flips data))
                = [numZ 100; numZ (-50); numZ 30]).
    { vm_compute in E. injection E as <-. by_evaluation. }
    split; [exact M|]. exact (P M).
Defined.

(** ** The itemized listing of the tax report *)

















Section ReportProperties.

Variable formatCurrency : number -> str.
Variable dateStringToLocale : str -> str.
Variable toLocaleDateString : Z -> str.
Variable numberToString : Z -> str.
Variable toLocaleString : Z -> str.
Variable toFixed2 : number -> str.






(** ** The combined summary of the report on all flips *)


















(** ** The reports and the clock *)

(** C6, as amended. Each report generator is a function of its inputs and
    of the generation date, which it reads from the clock and prints in the
    header: two generations from the same data give the same text whenever
    the clock reads as the same local date. *)
Theorem reports_depend_on_clock_date (now1 now2 : Z) :
  toLocaleDateString now1 = toLocaleDateString now2 ->
  (forall data : TaxExportData,
      generateTaxExportPDF formatCurrency dateStringToLocale
        toLocaleDateString numberToString toLocaleString toFixed2 now1 data
      = generateTaxExportPDF formatCurrency dateStringToLocale
          toLocaleDateString numberToString toLocaleString toFixed2 now2 data)
  /\ (forall data : AllFlipsTaxData,
         generateAllFlipsTaxReport formatCurrency dateStringToLocale
           toLocaleDateString numberToString toLocaleString toFixed2 now1 data
         = generateAllFlipsTaxReport formatCurrency dateStringToLocale
             toLocaleDateString numberToString toLocaleString toFixed2 now2
             data).
Proof.
  intro H. split; intro data.
  - unfold generateTaxExportPDF. rewrite H. reflexivity.
  - unfold generateAllFlipsTaxReport. rewrite H. reflexivity.
Qed.

End ReportProperties.

Lemma reports_depend_on_clock_date_witness :
  showDay 1000 = showDay 2000
  /\ generateTaxExportPDF showNumber (fun s => s) showDay showZ showZ
       showNumber 1000 sampleExport
     = generateTaxExportPDF showNumber (fun s => s) showDay showZ showZ
         showNumber 2000 sampleExport.
Proof.
  split; [reflexivity|].
  apply (proj1 (@reports_depend_on_clock_date showNumber (fun s => s) showDay
                  showZ showZ showNumber 1000 2000 eq_refl)).
Defined.

(** C6, as stated, fails: the same data give two different texts when the
    clock has moved to another day between the two generations. *)
Lemma reports_not_a_function_of_data :
  generateTaxExportPDF showNumber (fun s => s) showDay showZ showZ
    showNumber 0 sampleExport
  <> generateTaxExportPDF showNumber (fun s => s) showDay showZ showZ
       showNumber 86400000 sampleExport
  /\ generateAllFlipsTaxReport showNumber (fun s => s) showDay showZ showZ
       showNumber 0 sampleAllFlips
     <> generateAllFlipsTaxReport showNumber (fun s => s) showDay showZ showZ
          showNumber 86400000 sampleAllFlips.
Proof.
  split; intro H.
  - apply (f_equal (fun s => nth 41 s 0%N)) in H. vm_compute in H.
    discriminate H.
  - apply (f_equal (fun s => nth 55 s 0%N)) in H. vm_compute in H.
    discriminate H.
Qed.

(** ** The matcher *)

Lemma greedy_sound (R : Type) (p : char -> bool) (k : str -> str -> option R)
      (s taken : str) (m : R) :
  greedy p k taken s = Some m ->
  exists more rest : str,
    s = more ++ rest
    /\ Forall (fun c => p c = true) more
    /\ k (rev taken ++ more) rest = Some m.
Proof.
  revert taken. induction s as [|c s IH]; intros taken H; simpl in H.
  - exists [], []. rewrite ?app_nil_r. repeat split; auto.
  - destruct (p c) eqn:P.
    + destruct (greedy p k (c :: taken) s) as [m'|] eqn:G.
      * injection H as ->. apply IH in G.
        destruct G as [more [rest [E [F K]]]].
        exists (c :: more), rest. subst s. simpl in K.
        rewrite <- app_assoc in K. simpl in K. repeat split; auto.
      * exists [], (c :: s). rewrite ?app_nil_r. repeat split; auto.
    + exists [], (c :: s). rewrite ?app_nil_r. repeat split; auto.
Qed.

Lemma matchNode_sound (R : Type) (n : node) (k : str -> str -> option R)
      (s : str) (m : R) :
  matchNode n k s = Some m ->
  exists piece rest : str,
    s = piece ++ rest /\ pieceOk n piece /\ k piece rest = Some m.
Proof.
  unfold matchNode, pieceOk. intro H.
  destruct (qt n).
  - destruct s as [|c s]; [discriminate|].
    destruct (cls n c) eqn:C; [|discriminate].
    exists [c], s. repeat split; auto.
  - destruct s as [|c s].
    + exists [], []. repeat split; auto.
    + destruct (cls n c) eqn:C.
      * destruct (k [c] s) as [m'|] eqn:K.
        -- injection H as ->. exists [c], s. repeat split; auto.
        -- exists [], (c :: s). repeat split; auto.
      * exists [], (c :: s). repeat split; auto.
  - apply greedy_sound in H. destruct H as [more [rest [E [F K]]]].
    exists more, rest. simpl in K. repeat split; auto.
  - destruct s as [|c s]; [discriminate|].
    destruct (cls n c) eqn:C; [|discriminate].
    apply greedy_sound in H. destruct H as [more [rest [E [F K]]]].
    exists (c :: more), rest. subst s. simpl in K.
    repeat split; auto. simpl. lia.
Qed.

(** A successful match cuts the whole string into one piece per node; the
    groups are the pieces of the capturing nodes. *)
Lemma matchNodes_sound (r : regex) (caps : list str) (s : str) (m : list str) :
  matchNodes r caps s = Some m ->
  exists pieces : list str,
    s = concat pieces
    /\ Forall2 pieceOk r pieces
    /\ m = rev caps ++ captured r pieces.
Proof.
  revert caps s. induction r as [|n r IH]; intros caps s H; simpl in H.
  - destruct s; [|discriminate]. injection H as <-.
    exists []. simpl. rewrite ?app_nil_r. repeat split. constructor.
  - apply matchNode_sound in H. destruct H as [piece [rest [E [P K]]]].
    apply IH in K. destruct K as [pieces [E' [F M]]].
    exists (piece :: pieces). subst s rest. simpl.
    split; [reflexivity|]. split; [constructor; assumption|].
    rewrite M. destruct (capture n); simpl; [|reflexivity].
    rewrite <- app_assoc. reflexivity.
Qed.

Lemma exec_sound (r : regex) (s : str) (m : list str) :
  exec r s = Some m ->
  exists pieces : list str,
    s = concat pieces /\ Forall2 pieceOk r pieces /\ m = captured r pieces.
Proof. apply matchNodes_sound. Qed.

(** ** [trim] *)

Lemma dropWhile_split (p : char -> bool) (s : str) :
  exists pre : str, s = pre ++ dropWhile p s /\ Forall (fun c => p c = true) pre.
Proof.
  induction s as [|c s [pre [E F]]]; simpl.
  - exists []. auto.
  - destruct (p c) eqn:P.
    + exists (c :: pre). simpl. split; [congruence | constructor; assumption].
    + exists []. auto.
Qed.

Lemma dropWhile_head (p : char -> bool) (s : str) (c : char) (r : str) :
  dropWhile p s = c :: r -> p c = false.
Proof.
  induction s as [|x s IH]; simpl; [discriminate|].
  destruct (p x) eqn:P; [exact IH|]. intro H. injection H as <- _. exact P.
Qed.

Lemma dropWhile_fixed (p : char -> bool) (s : str) :
  match s with [] => True | c :: _ => p c = false end -> dropWhile p s = s.
Proof.
  destruct s as [|c s]; simpl; [reflexivity|]. intros ->. reflexivity.
Qed.

Lemma dropWhile_nil_iff (p : char -> bool) (s : str) :
  dropWhile p s = [] <-> Forall (fun c => p c = true) s.
Proof.
  induction s as [|c s IH]; simpl.
  - split; auto.
  - destruct (p c) eqn:P.
    + rewrite IH. split; intro H.
      * constructor; assumption.
      * inversion H; assumption.
    + split; [discriminate|]. intro H. inversion H. congruence.
Qed.

Lemma Forall_rev_iff (A : Type) (P : A -> Prop) (l : list A) :
  Forall P (rev l) <-> Forall P l.
Proof.
  split; intro H.
  - rewrite <- (rev_involutive l). apply Forall_rev. exact H.
  - apply Forall_rev. exact H.
Qed.

(** [trim] leaves nothing exactly when the string is white space only. *)
Lemma trim_nil_iff (s : str) :
  trim s = [] <-> Forall (fun c => isSpace c = true) s.
Proof.
  unfold trim.
  destruct (dropWhile_split isSpace s) as [pre [E F]].
  split; intro H.
  - assert (D : dropWhile isSpace (rev (dropWhile isSpace s)) = []).
    { destruct (dropWhile isSpace (rev (dropWhile isSpace s))) as [|x w];
        [reflexivity|].
      simpl in H. destruct (rev w); discriminate. }
    apply dropWhile_nil_iff, Forall_rev_iff in D.
    rewrite rev_involutive in D.
    rewrite E. apply Forall_app. split; assumption.
  - assert (D : dropWhile isSpace s = []) by (apply dropWhile_nil_iff; exact H).
    rewrite D. reflexivity.
Qed.

(** The trimmed string is a segment of the string, and it neither starts
    nor ends with white space. *)
Lemma trim_segment (s : str) :
  exists pre post : str,
    s = pre ++ trim s ++ post
    /\ Forall (fun c => isSpace c = true) pre
    /\ Forall (fun c => isSpace c = true) post.
Proof.
  unfold trim.
  destruct (dropWhile_split isSpace s) as [pre [E F]].
  destruct (dropWhile_split isSpace (rev (dropWhile isSpace s))) as [post [E' F']].
  exists pre, (rev post). split; [|split].
  - rewrite <- rev_app_distr, <- E', rev_involutive. exact E.
  - exact F.
  - apply Forall_rev. exact F'.
Qed.

Lemma trim_last (s r : str) (c : char) : trim s = r ++ [c] -> isSpace c = false.
Proof.
  unfold trim. intro H.
  apply (f_equal (@rev char)) in H.
  rewrite rev_involutive, rev_app_distr in H. simpl in H.
  apply dropWhile_head in H. exact H.
Qed.



(** A string whose last character is not white space keeps it. *)
Lemma trim_keeps_last (r : str) (c : char) :
  isSpace c = false -> trim (r ++ [c]) <> [].
Proof.
  intros H T. apply trim_nil_iff in T. apply Forall_app in T.
  destruct T as [_ T]. inversion T. congruence.
Qed.

(** ** The quick-entry parser *)

Lemma parseLineItem_ordered_choice (input : str) :
  parseLineItem input =
    if isEmpty (trim input) then ParseError emptyInputError
    else firstMatch [Labeled; Spaced; Fallback] (trim input).
Proof.
  unfold parseLineItem, firstMatch, grammarResult, amountResult, grammarPattern.
  destruct (isEmpty (trim input)); [reflexivity|].
  destruct (exec dollarPattern (trim input)); [reflexivity|].
  destruct (exec numberPattern (trim input)); [reflexivity|].
  destruct (exec simplePattern (trim input)); reflexivity.
Qed.

(** C3. The labeled, spaced and fallback grammars are tried in this order
    and the first that matches decides the result (even when a later one
    would match too: ["45 - oil filter"] is read by the labeled form, the
    spaced form would reject it).  ["$150-25 - new battery"] gives 125 and
    ["new battery"] by the labeled form; ["45 oil filter"] gives 45 and
    ["oil filter"] by the spaced form, the labeled one not matching. *)
Theorem quickEntry_grammars_in_order :
  (forall input : str,
      parseLineItem input =
        if isEmpty (trim input) then ParseError emptyInputError
        else firstMatch [Labeled; Spaced; Fallback] (trim input))
  /\ (exec dollarPattern (lit "$150-25 - new battery")
      = Some [lit "150-25 "; lit "new battery"]
      /\ parseLineItem (lit "$150-25 - new battery")
         = Parsed (numZ 125) (lit "new battery"))
  /\ (exec dollarPattern (lit "45 oil filter") = None
      /\ exec numberPattern (lit "45 oil filter")
         = Some [lit "45"; lit "oil filter"]
      /\ parseLineItem (lit "45 oil filter")
         = Parsed (numZ 45) (lit "oil filter"))
  /\ (exec dollarPattern (lit "45 - oil filter")
      = Some [lit "45 "; lit "oil filter"]
      /\ exec numberPattern (lit "45 - oil filter")
         = Some [lit "45 -"; lit "oil filter"]
      /\ grammarResult Spaced [lit "45 -"; lit "oil filter"]
         = ParseError invalidAmountError
      /\ parseLineItem (lit "45 - oil filter")
         = Parsed (numZ 45) (lit "oil filter")).
Proof.
  split; [exact parseLineItem_ordered_choice|].
  repeat split; by_evaluation.
Qed.

Lemma amountResult_outcomes (amountStr title : str) :
  (forall a t, amountResult amountStr title = Parsed a t ->
               (0 < a)%Qc /\ t = title)
  /\ (forall e, amountResult amountStr title = ParseError e ->
                e = invalidAmountError).
Proof.
  unfold amountResult.
  destruct (evaluateMath amountStr) as [amount|].
  - destruct (leb amount 0) eqn:L.
    + split; [discriminate|]. intros e H. injection H as <-. reflexivity.
    + split; [|discriminate]. intros a t H. injection H as <- <-.
      split; [apply leb_gt; exact L | reflexivity].
  - split; [discriminate|]. intros e H. injection H as <-. reflexivity.
Qed.



(** ** Decimal literals *)








(** Character classes, as ranges. *)
Ltac by_ranges :=
  unfold isDigitOrPoint, isOperator, isMathSpace, isMath, isPlusMinus,
    isTimesDiv, isChar, isSpace, isDot, isDigit, char_eqb, chr in *;
  simpl N_of_ascii in *;
  repeat match goal with
         | H : _ && _ = true |- _ => apply andb_true_iff in H; destruct H
         | H : _ || _ = true |- _ => apply orb_true_iff in H; destruct H
         | H : _ || _ = false |- _ => apply orb_false_iff in H; destruct H
         | H : (_ <=? _)%N = true |- _ => apply N.leb_le in H
         | H : (_ <=? _)%N = false |- _ => apply N.leb_gt in H
         | H : (_ =? _)%N = true |- _ => apply N.eqb_eq in H
         | H : (_ =? _)%N = false |- _ => apply N.eqb_neq in H
         end;
  repeat match goal with
         | |- context [(?a <=? ?b)%N] => destruct (N.leb_spec a b)
         | |- context [(?a =? ?b)%N] => destruct (N.eqb_spec a b)
         end;
  simpl; try reflexivity; try lia; try discriminate.

(** No character from [!] to the end of ASCII and a little beyond is white
    space. *)
Lemma printable_not_space (c : char) :
  (33 <= c < 160)%N -> isSpace c = false.
Proof.
  intros R. unfold isSpace.
  replace (c <=? 13)%N with false by (symmetry; apply N.leb_gt; lia).
  replace (8192 <=? c)%N with false by (symmetry; apply N.leb_gt; lia).
  repeat match goal with
         | |- context [(c =? ?b)%N] =>
             replace (c =? b)%N with false
               by (symmetry; apply N.eqb_neq; lia)
         end.
  rewrite andb_false_r. reflexivity.
Qed.

Lemma digitOrPoint_plain (c : char) :
  isDigitOrPoint c = true ->
  isSpace c = false /\ isChar "-" c = false /\ isChar "+" c = false
  /\ isPlusMinus c = false /\ isTimesDiv c = false /\ isMath c = true.
Proof.
  intro H. split; [apply printable_not_space; by_ranges|].
  repeat split; by_ranges.
Qed.



(** ** [split] *)





(** ** The evaluator on printed expressions *)










(** ** Rounding to cents *)



(** ** [evaluateMath] *)








(** Outside the syntax of expressions the evaluator gives up: a sign in
    front of a number leaves an empty operand, which does not read as a
    number; and white space is removed before anything is read, so that
    digits on both sides of a blank make one number. *)
Lemma evaluateMath_outside_the_syntax :
  evaluateMath (lit "-5") = None
  /\ evaluateMath (lit "2*-3") = None
  /\ evaluateMath (lit "5--3") = None
  /\ evaluateMath (lit "1/0 2") = Some (Q2Qc (1 # 2))
  /\ evaluateMath (lit "1.2.3") = Some (Q2Qc (6 # 5)).
Proof. repeat split; by_evaluation. Qed.

(** ** Division by zero *)












(** ** The title of a labeled or spaced entry *)

Ltac invert_pieces :=
  repeat match goal with
         | H : Forall2 _ (_ :: _) _ |- _ => inversion H; clear H; subst
         | H : Forall2 _ [] _ |- _ => inversion H; clear H; subst
         end.

(** The last group of the labeled and of the spaced pattern is a non-empty
    end of the string. *)
Lemma title_group (g : Grammar) (t : str) (m : list str) :
  g <> Fallback ->
  exec (grammarPattern g) t = Some m ->
  exists (x r : str) (c : char), group m 2 = r ++ [c] /\ t = x ++ r ++ [c].
Proof.
  intros NF H. apply exec_sound in H. destruct H as [pieces [E [F M]]].
  destruct g; [| |contradiction]; cbn [grammarPattern] in F, M;
    unfold dollarPattern, numberPattern in F, M; invert_pieces;
    cbn [captured capture group nth Nat.sub concat];
    match goal with
    | H : pieceOk (Node isDot Plus true) ?p |- _ =>
        destruct H as [_ L]; cbn [qt] in L;
        destruct (exists_last (l := p)) as [r [c ->]];
        [ intros ->; simpl in L; lia | ]
    end.
  - eexists _, r, c. split; [reflexivity|].
    rewrite app_nil_r, !app_assoc. reflexivity.
  - eexists _, r, c. split; [reflexivity|].
    rewrite app_nil_r, !app_assoc. reflexivity.
Qed.

Lemma title_not_empty (g : Grammar) (input : str) (m : list str) :
  g <> Fallback ->
  exec (grammarPattern g) (trim input) = Some m ->
  isEmpty (trim (group m 2)) = false.
Proof.
  intros NF H.
  destruct (@title_group g (trim input) m NF H) as [x [r [c [G E]]]].
  rewrite G. rewrite app_assoc in E.
  assert (Sc : isSpace c = false) by (eapply trim_last; exact E).
  pose proof (@trim_keeps_last r c Sc) as N.
  destruct (trim (r ++ [c])); [contradiction | reflexivity].
Qed.



(** X25. The message of the empty title is never returned: the trimmed
    input does not end with white space, so the title of a labeled or
    spaced entry is not empty. *)
Lemma emptyTitleError_unreachable (input : str) :
  parseLineItem input <> ParseError emptyTitleError.
Proof.
  rewrite parseLineItem_ordered_choice.
  destruct (isEmpty (trim input)); [discriminate|].
  assert (A : forall a t, amountResult a t <> ParseError emptyTitleError).
  { intros a t H.
    apply (proj2 (amountResult_outcomes a t)) in H. discriminate H. }
  cbn [firstMatch].
  destruct (exec (grammarPattern Labeled) (trim input)) as [m|] eqn:E1.
  { unfold grammarResult.
    rewrite (@title_not_empty Labeled input m ltac:(discriminate) E1).
    apply A. }
  destruct (exec (grammarPattern Spaced) (trim input)) as [m|] eqn:E2.
  { unfold grammarResult.
    rewrite (@title_not_empty Spaced input m ltac:(discriminate) E2).
    apply A. }
  destruct (exec (grammarPattern Fallback) (trim input)) as [m|] eqn:E3.
  { unfold grammarResult. apply A. }
  discriminate.
Qed.

(** * Further properties of the quick-entry parser *)

Lemma dropWhile_skip (p : char -> bool) (pre s : str) :
  Forall (fun c => p c = true) pre -> dropWhile p (pre ++ s) = dropWhile p s.
Proof.
  induction 1 as [|c pre Pc F IH]; simpl; [reflexivity|].
  rewrite Pc. exact IH.
Qed.

Lemma dropWhile_app_kept (p : char -> bool) (a b : str) :
  dropWhile p a <> [] -> dropWhile p (a ++ b) = dropWhile p a ++ b.
Proof.
  induction a as [|c a IH]; simpl; [contradiction|].
  destruct (p c); [exact IH | reflexivity].
Qed.

Lemma trim_outer (pre s post : str) :
  Forall (fun c => isSpace c = true) pre ->
  Forall (fun c => isSpace c = true) post ->
  trim (pre ++ s ++ post) = trim s.
Proof.
  intros Fpre Fpost. unfold trim.
  rewrite (@dropWhile_skip isSpace pre (s ++ post) Fpre).
  destruct (dropWhile isSpace s) as [|c r] eqn:D.
  - apply dropWhile_nil_iff in D.
    assert (A : dropWhile isSpace (s ++ post) = []).
    { apply dropWhile_nil_iff. apply Forall_app. split; assumption. }
    rewrite A. reflexivity.
  - rewrite dropWhile_app_kept by (rewrite D; discriminate).
    rewrite D, rev_app_distr.
    rewrite (@dropWhile_skip isSpace (rev post) (rev (c :: r)))
      by (apply Forall_rev; exact Fpost).
    reflexivity.
Qed.

(** X1. White space around the input does not change the result. *)
Theorem parseLineItem_ignores_outer_space (pre input post : str) :
  Forall (fun c => isSpace c = true) pre ->
  Forall (fun c => isSpace c = true) post ->
  parseLineItem (pre ++ input ++ post) = parseLineItem input.
Proof.
  intros Fpre Fpost. unfold parseLineItem.
  rewrite (@trim_outer pre input post Fpre Fpost). reflexivity.
Qed.

Lemma parseLineItem_ignores_outer_space_witness :
  parseLineItem (lit "  " ++ lit "45 oil filter" ++ [10%N])
  = parseLineItem (lit "45 oil filter").
Proof.
  apply (@parseLineItem_ignores_outer_space (lit "  ") (lit "45 oil filter")
           [10%N]); repeat constructor.
Defined.





Lemma class_plus_sound (p : char -> bool) (s : str) :
  test [Node p Plus false] s = true ->
  s <> [] /\ Forall (fun c => p c = true) s.
Proof.
  unfold test. destruct (exec _ s) as [m|] eqn:E; [|discriminate].
  intros _. destruct (exec_sound _ _ E) as [pieces [-> [F _]]].
  invert_pieces.
  match goal with H : pieceOk _ _ |- _ => destruct H as [A L] end.
  cbn [cls qt] in *. cbn [concat]. rewrite app_nil_r. split.
  - intros ->. simpl in L. lia.
  - exact A.
Qed.

(** X3. [evaluateMath] gives no value for a blank string, nor for a string
    with a character other than a digit, an operator, a point or white
    space. *)
Theorem evaluateMath_rejects (s : str) :
  Forall (fun c => isSpace c = true) s
  \/ Exists (fun c => isMathSpace c = false) s ->
  evaluateMath s = None.
Proof.
  intros H. unfold evaluateMath.
  destruct (test mathOnly (removeSpaces s)) eqn:T; [|reflexivity].
  exfalso. apply class_plus_sound in T. destruct T as [NE F].
  destruct H as [B | X].
  - apply NE. clear NE F. unfold removeSpaces.
    induction B as [|c r Pc B IH]; simpl; [reflexivity|].
    rewrite Pc. exact IH.
  - apply Exists_exists in X. destruct X as [c [I M]].
    unfold isMathSpace in M. apply orb_false_iff in M. destruct M as [M S].
    rewrite Forall_forall in F.
    assert (I' : In c (removeSpaces s)).
    { unfold removeSpaces. apply filter_In. split; [exact I|].
      rewrite S. reflexivity. }
    rewrite (F c I') in M. discriminate.
Qed.

Lemma evaluateMath_rejects_witness :
  evaluateMath (lit "12 dollars") = None.
Proof.
  apply evaluateMath_rejects. right.
  do 3 apply Exists_cons_tl. apply Exists_cons_hd. reflexivity.
Defined.

Lemma plus_first (p : char -> bool) (cap : bool) (rest : regex) (s : str)
      (m : list str) :
  exec (Node p Plus cap :: rest) s = Some m ->
  exists c r, s = c :: r /\ p c = true.
Proof.
  intros H. apply exec_sound in H. destruct H as [pieces [-> [F _]]].
  inversion F as [|n piece r' ps [A L] F']; subst. cbn [cls qt] in *.
  destruct piece as [|c piece]; [simpl in L; lia|].
  exists c, (piece ++ concat ps). split; [reflexivity|].
  inversion A; assumption.
Qed.

Lemma isSpace_isMathSpace (c : char) :
  isSpace c = true -> isMathSpace c = true.
Proof. intros H. unfold isMathSpace. rewrite H. apply orb_true_r. Qed.

Lemma dollarPattern_shape (s : str) (m : list str) :
  exec dollarPattern s = Some m ->
  exists c r, s = c :: r
    /\ ((c = chr "$" /\ In (chr "-") r) \/ isMathSpace c = true).
Proof.
  intros H. apply exec_sound in H. destruct H as [pieces [-> [F _]]].
  unfold dollarPattern in F. invert_pieces.
  repeat match goal with H : pieceOk _ _ |- _ =>
    destruct H as [? ?] end.
  cbn [cls qt] in *. cbn [concat]. rewrite app_nil_r.
  match goal with
  | H : Forall (fun c => isChar "-" c = true) ?h |- _ =>
      destruct h as [|d [|? ?]]; try (simpl in *; lia);
      inversion H as [|? ? Hd _]; subst;
      apply N.eqb_eq in Hd; subst d
  end.
  match goal with
  | H : Forall (fun c => isChar "$" c = true) ?o |- _ =>
      destruct o as [|d [|? ?]]; try (simpl in *; lia);
      [| inversion H as [|? ? Hd _]; subst; apply N.eqb_eq in Hd; subst d ]
  end.
  - match goal with
    | H : Forall (fun c => isSpace c = true) ?sp |- context [[] ++ ?sp ++ _] =>
        destruct sp as [|c sp]; cbn [app]
    end.
    + match goal with
      | H : Forall (fun c => isMathSpace c = true) ?a |- _ =>
          destruct a as [|c a]; [simpl in *; lia|];
          inversion H; subst
      end.
      eexists _, _. split; [reflexivity|]. right. assumption.
    + eexists _, _. split; [reflexivity|]. right.
      apply isSpace_isMathSpace.
      match goal with H : Forall _ (c :: _) |- _ => inversion H; assumption end.
  - eexists _, _. split; [reflexivity|]. left. split; [reflexivity|].
    cbn [app]. rewrite !in_app_iff. cbn [In]. auto 10.
Qed.

(** X4. An entry whose first character (after trimming) is neither [$] nor
    a digit, an operator, a point or white space is not read at all, and
    neither is an entry that starts with [$] and has no hyphen after it:
    both give the format message. *)
Theorem parseLineItem_unparseable (input : str) (c : char) (r : str) :
  trim input = c :: r ->
  (c <> chr "$" /\ isMathSpace c = false)
  \/ (c = chr "$" /\ ~ In (chr "-") r) ->
  parseLineItem input = ParseError unparseableError.
Proof.
  intros T H. rewrite parseLineItem_ordered_choice, T.
  cbn [isEmpty firstMatch grammarPattern].
  assert (M : isMathSpace c = false).
  { destruct H as [[_ M] | [E _]]; [exact M | rewrite E; reflexivity]. }
  destruct (exec dollarPattern (c :: r)) as [m|] eqn:E1.
  { exfalso. apply dollarPattern_shape in E1.
    destruct E1 as [c' [r' [E [[D I] | M']]]]; injection E as <- <-.
    - destruct H as [[N _] | [_ N]]; [apply N; exact D | apply N; exact I].
    - rewrite M in M'. discriminate. }
  destruct (exec numberPattern (c :: r)) as [m|] eqn:E2.
  { exfalso. apply plus_first in E2. destruct E2 as [c' [r' [E M']]].
    injection E as <- <-. rewrite M in M'. discriminate. }
  destruct (exec simplePattern (c :: r)) as [m|] eqn:E3.
  { exfalso. apply plus_first in E3. destruct E3 as [c' [r' [E M']]].
    injection E as <- <-. rewrite M in M'. discriminate. }
  reflexivity.
Qed.

Lemma parseLineItem_unparseable_witness :
  parseLineItem (lit "oil filter 45") = ParseError unparseableError
  /\ parseLineItem (lit "$45 oil filter") = ParseError unparseableError.
Proof.
  split.
  - apply (@parseLineItem_unparseable (lit "oil filter 45") (chr "o")
             (lit "il filter 45")); [reflexivity|].
    left. split; [discriminate | reflexivity].
  - apply (@parseLineItem_unparseable (lit "$45 oil filter") (chr "$")
             (lit "45 oil filter")); [reflexivity|].
    right. split; [reflexivity|]. simpl. intros H.
    repeat (destruct H as [H|H]; [discriminate|]). exact H.
Defined.

(** ** Which match the backtracking matcher returns *)

Lemma greedy_none (R : Type) (p : char -> bool) (k : str -> str -> option R)
      (s taken : str) :
  (forall x y, s = x ++ y -> Forall (fun c => p c = true) x ->
               k (rev taken ++ x) y = None) ->
  greedy p k taken s = None.
Proof.
  revert taken. induction s as [|c s IH]; intros taken H.
  - simpl. rewrite <- (H [] []); [rewrite app_nil_r|..]; auto.
  - assert (K : k (rev taken) (c :: s) = None).
    { rewrite <- (H [] (c :: s)); [rewrite app_nil_r|..]; auto. }
    simpl. destruct (p c) eqn:Pc; [|exact K].
    rewrite IH; [exact K|].
    intros x y E F. simpl. rewrite <- app_assoc. simpl.
    apply H; [rewrite E; reflexivity | constructor; assumption].
Qed.

(** A greedy repetition returns the result of the longest repetition after
    which the rest of the pattern matches. *)
Lemma greedy_longest (R : Type) (p : char -> bool)
      (k : str -> str -> option R) (more rest taken : str) (r : R) :
  Forall (fun c => p c = true) more ->
  k (rev taken ++ more) rest = Some r ->
  (forall x y, rest = x ++ y -> x <> [] -> Forall (fun c => p c = true) x ->
               k (rev taken ++ more ++ x) y = None) ->
  greedy p k taken (more ++ rest) = Some r.
Proof.
  revert taken. induction more as [|c more IH]; intros taken F K L.
  - rewrite app_nil_r in K. cbn [app] in *.
    destruct rest as [|c s]; simpl; [exact K|].
    destruct (p c) eqn:Pc; [|exact K].
    rewrite greedy_none; [exact K|].
    intros x y E Fx. simpl. rewrite <- app_assoc. simpl.
    apply (L (c :: x) y); [rewrite E; reflexivity | discriminate |].
    constructor; assumption.
  - inversion F as [|? ? Pc F']; subst. simpl. rewrite Pc.
    rewrite IH; [reflexivity | exact F' | |].
    + simpl. rewrite <- app_assoc. exact K.
    + intros x y E N Fx. simpl. rewrite <- app_assoc. simpl.
      apply L; assumption.
Qed.

Lemma greedy_stop (R : Type) (p : char -> bool)
      (k : str -> str -> option R) (more rest taken : str) (r : R) :
  Forall (fun c => p c = true) more ->
  stopsAt p rest ->
  k (rev taken ++ more) rest = Some r ->
  greedy p k taken (more ++ rest) = Some r.
Proof.
  intros F S K. apply greedy_longest; [exact F | exact K |].
  intros x y E N Fx. exfalso. destruct x as [|c x]; [contradiction|].
  rewrite E in S. simpl in S. inversion Fx; subst. congruence.
Qed.

Lemma last_plus (p : char -> bool) (caps : list str) (s : str) :
  s <> [] -> Forall (fun c => p c = true) s ->
  matchNodes [Node p Plus true] caps s = Some (rev (s :: caps)).
Proof.
  intros N F. destruct s as [|c s]; [contradiction|].
  inversion F as [|? ? Pc F']; subst.
  cbn [matchNodes matchNode qt cls capture]. rewrite Pc.
  rewrite <- (app_nil_r s) at 1.
  apply greedy_stop; [exact F' | exact I |].
  cbn [rev app]. reflexivity.
Qed.

Lemma labelTail_match (caps : list str) (sp t : str) :
  Forall (fun c => isSpace c = true) sp ->
  t <> [] -> stopsAt isSpace t -> Forall (fun c => isDot c = true) t ->
  matchNodes labelTail caps (chr "-" :: sp ++ t) = Some (rev (t :: caps)).
Proof.
  intros Fsp N S Fd. unfold labelTail.
  cbn [matchNodes matchNode qt cls capture greedy].
  replace (isSpace (chr "-")) with false by reflexivity.
  replace (isChar "-" (chr "-")) with true by reflexivity.
  apply greedy_stop; [exact Fsp | exact S |].
  cbn [rev app]. apply last_plus; assumption.
Qed.

Lemma labelTail_sound (caps : list str) (s : str) (m : list str) :
  matchNodes labelTail caps s = Some m ->
  exists sp z, s = sp ++ chr "-" :: z /\ Forall (fun c => isSpace c = true) sp.
Proof.
  intros H. apply matchNodes_sound in H. destruct H as [pieces [-> [F _]]].
  unfold labelTail in F. invert_pieces.
  repeat match goal with H : pieceOk _ _ |- _ => destruct H as [? ?] end.
  cbn [cls qt] in *.
  match goal with
  | H : Forall (fun c => isChar "-" c = true) ?h |- _ =>
      destruct h as [|d [|? ?]]; try (simpl in *; lia);
      inversion H as [|? ? Hd _]; subst;
      apply N.eqb_eq in Hd; subst d
  end.
  cbn [concat app]. eexists _, _. split; [reflexivity | assumption].
Qed.

Lemma not_dollar (c : char) : isMathSpace c = true -> isChar "$" c = false.
Proof.
  intros H. unfold isChar, char_eqb.
  destruct (N.eqb_spec (chr "$") c) as [<-|]; [discriminate | reflexivity].
Qed.

Lemma matchNodes_optional (p : char -> bool) (r : regex) (caps : list str)
      (c : char) (s : str) :
  matchNodes (Node p Optional false :: r) caps (c :: s)
  = if p c then
      match matchNodes r caps s with
      | Some m => Some m
      | None => matchNodes r caps (c :: s)
      end
    else matchNodes r caps (c :: s).
Proof. reflexivity. Qed.

Lemma dollarPattern_exec (dollar : bool) (sp0 a sp3 t : str) :
  Forall (fun c => isSpace c = true) sp0 ->
  a <> [] -> stopsAt isSpace a -> Forall (fun c => isMathSpace c = true) a ->
  Forall (fun c => isSpace c = true) sp3 ->
  t <> [] -> stopsAt isSpace t -> Forall (fun c => isDot c = true) t ->
  hyphensInsideText (sp3 ++ t) ->
  exec dollarPattern
       ((if dollar then [chr "$"] else []) ++ sp0 ++ a ++ chr "-" :: sp3 ++ t)
  = Some [a; t].
Proof.
  intros F0 Na Sa Fa F3 Nt St Ft Hy.
  assert (G : forall caps,
             matchNodes (Node isMathSpace Plus true :: labelTail) caps
                        (a ++ chr "-" :: sp3 ++ t)
             = Some (rev (t :: a :: caps))).
  { intros caps. destruct a as [|c a]; [contradiction|].
    inversion Fa as [|? ? Pc Fa']; subst.
    cbn [matchNodes matchNode qt cls capture app]. rewrite Pc.
    apply greedy_longest; [exact Fa' | |].
    - cbn [rev app]. apply labelTail_match; assumption.
    - intros x y E Nx Fx.
      destruct (matchNodes labelTail _ y) as [m|] eqn:M; [|reflexivity].
      exfalso. apply labelTail_sound in M. destruct M as [sp [z [-> Fsp]]].
      destruct x as [|d w]; [contradiction|]. injection E as <- E.
      inversion Fx as [|? ? _ Fw]; subst.
      specialize (Hy (w ++ sp) z). rewrite <- app_assoc in Hy.
      specialize (Hy E). apply Exists_exists in Hy.
      destruct Hy as [e [In_e Me]]. apply in_app_iff in In_e.
      rewrite Forall_forall in Fw, Fsp.
      destruct In_e as [In_e | In_e].
      + rewrite (Fw e In_e) in Me. discriminate.
      + rewrite (isSpace_isMathSpace _ (Fsp e In_e)) in Me. discriminate. }
  assert (G2 : forall caps,
             matchNodes (Node isSpace Star false
                           :: Node isMathSpace Plus true :: labelTail) caps
                        (sp0 ++ a ++ chr "-" :: sp3 ++ t)
             = Some (rev (t :: a :: caps))).
  { intros caps.
    change (matchNodes (Node isSpace Star false
                          :: Node isMathSpace Plus true :: labelTail) caps
                       (sp0 ++ a ++ chr "-" :: sp3 ++ t))
      with (greedy isSpace
              (fun (_ rest : str) =>
                 matchNodes (Node isMathSpace Plus true :: labelTail) caps rest)
              [] (sp0 ++ a ++ chr "-" :: sp3 ++ t)).
    apply greedy_stop; [exact F0 | | apply G].
    destruct a; [contradiction | exact Sa]. }
  unfold exec.
  change dollarPattern
    with (Node (isChar "$") Optional false
            :: Node isSpace Star false
            :: Node isMathSpace Plus true :: labelTail).
  destruct dollar.
  - cbn [app]. rewrite matchNodes_optional.
    replace (isChar "$" (chr "$")) with true by reflexivity.
    rewrite G2. reflexivity.
  - cbn [app].
    assert (H : exists c s, sp0 ++ a ++ chr "-" :: sp3 ++ t = c :: s
                            /\ isMathSpace c = true).
    { destruct sp0 as [|c sp0].
      - destruct a as [|c a]; [contradiction|].
        exists c, (a ++ chr "-" :: sp3 ++ t). split; [reflexivity|].
        inversion Fa; assumption.
      - eexists c, _. split; [reflexivity|].
        apply isSpace_isMathSpace. inversion F0; assumption. }
    destruct H as [c [s [E M]]]. rewrite E.
    rewrite matchNodes_optional, (not_dollar _ M), <- E. exact (G2 []).
Qed.

Lemma hyphensInsideText_none (t : str) :
  ~ In (chr "-") t -> hyphensInsideText t.
Proof.
  intros N w rest E. exfalso. apply N. rewrite E. apply in_elt.
Qed.

Lemma hyphensInsideText_word (sp : str) (c : char) (r : str) :
  Forall (fun c => isSpace c = true) sp -> isMathSpace c = false ->
  hyphensInsideText (sp ++ c :: r).
Proof.
  intros F M. induction F as [|s sp Ps F IH]; intros w rest E.
  - destruct w as [|d w]; injection E as E1 E2.
    + rewrite E1 in M. discriminate.
    + apply Exists_cons_hd. rewrite <- E1. exact M.
  - destruct w as [|d w]; injection E as E1 E2.
    + rewrite E1 in Ps. discriminate.
    + apply Exists_cons_tl. apply (IH w rest E2).
Qed.

(** X5. A labeled entry is cut at the last hyphen that can end an amount:
    with an optional [$] in front, an amount text [a] of digits, operators,
    points and white space, a hyphen, and a text [t] none of whose hyphens
    could end an amount, the result is the one of evaluating [a] (hyphens
    of [a] are subtractions) with the trimmed [t] as title. *)
Theorem parseLineItem_labeled_entry (input : str) (dollar : bool)
        (a t : str) :
  trim input = (if dollar then [chr "$"] else []) ++ a ++ chr "-" :: t ->
  Forall (fun c => isMathSpace c = true) a -> trim a <> [] ->
  Forall (fun c => isDot c = true) t -> trim t <> [] ->
  hyphensInsideText t ->
  parseLineItem input = amountResult (trim a) (trim t).
Proof.
  intros T Fa Na Ft Nt Hy.
  destruct (dropWhile_split isSpace a) as [sp0 [Ea F0]].
  destruct (dropWhile_split isSpace t) as [sp3 [Et F3]].
  assert (Na' : dropWhile isSpace a <> []).
  { intros D. apply Na. apply trim_nil_iff. apply dropWhile_nil_iff. exact D. }
  assert (Nt' : dropWhile isSpace t <> []).
  { intros D. apply Nt. apply trim_nil_iff. apply dropWhile_nil_iff. exact D. }
  assert (Sa : stopsAt isSpace (dropWhile isSpace a)).
  { destruct (dropWhile isSpace a) as [|c r] eqn:D; [exact I|].
    simpl. eapply dropWhile_head. exact D. }
  assert (St : stopsAt isSpace (dropWhile isSpace t)).
  { destruct (dropWhile isSpace t) as [|c r] eqn:D; [exact I|].
    simpl. eapply dropWhile_head. exact D. }
  assert (Fa' : Forall (fun c => isMathSpace c = true) (dropWhile isSpace a)).
  { rewrite Ea in Fa. apply Forall_app in Fa. apply Fa. }
  assert (Ft' : Forall (fun c => isDot c = true) (dropWhile isSpace t)).
  { rewrite Et in Ft. apply Forall_app in Ft. apply Ft. }
  assert (X : exec dollarPattern (trim input)
              = Some [dropWhile isSpace a; dropWhile isSpace t]).
  { rewrite T. rewrite Ea at 1. rewrite Et at 1. rewrite <- app_assoc.
    apply dollarPattern_exec; try assumption. rewrite <- Et. exact Hy. }
  assert (Ta : trim (dropWhile isSpace a) = trim a).
  { rewrite Ea at 2.
    rewrite <- (app_nil_r (dropWhile isSpace a)) at 2.
    symmetry. apply trim_outer; [exact F0 | constructor]. }
  assert (Tt : trim (dropWhile isSpace t) = trim t).
  { rewrite Et at 2.
    rewrite <- (app_nil_r (dropWhile isSpace t)) at 2.
    symmetry. apply trim_outer; [exact F3 | constructor]. }
  rewrite parseLineItem_ordered_choice.
  destruct (trim input) as [|c r] eqn:TI.
  { exfalso. destruct dollar; [discriminate T|].
    destruct a; discriminate T. }
  cbn [isEmpty firstMatch grammarPattern]. rewrite X.
  unfold grammarResult. cbn [group Nat.sub nth]. rewrite Ta, Tt.
  destruct (trim t); [contradiction | reflexivity].
Qed.

Lemma parseLineItem_labeled_entry_witness :
  parseLineItem (lit "$200 - 50 - pre-owned pump")
  = amountResult (lit "200 - 50") (lit "pre-owned pump").
Proof.
  apply (@parseLineItem_labeled_entry (lit "$200 - 50 - pre-owned pump") true
           (lit "200 - 50 ") (lit " pre-owned pump")).
  - reflexivity.
  - repeat constructor.
  - discriminate.
  - repeat constructor.
  - discriminate.
  - apply (@hyphensInsideText_word (lit " ") (chr "p") (lit "re-owned pump"));
      [repeat constructor | reflexivity].
Defined.





(** ** Entries without a hyphen that can end an amount *)

Lemma prefix_class (p : char -> bool) (l1 : str) (x : char) (l2 m1 m2 : str) :
  l1 ++ x :: l2 = m1 ++ m2 ->
  Forall (fun c => p c = true) l1 -> stopsAt p m2 ->
  In x m1 \/ exists r, m2 = x :: r.
Proof.
  revert m1. induction l1 as [|c l1 IH]; intros m1 E F S.
  - destruct m1 as [|y m1]; cbn [app] in E.
    + right. exists l2. symmetry. exact E.
    + left. injection E as -> _. left. reflexivity.
  - inversion F as [|? ? Pc F']; subst. destruct m1 as [|y m1]; cbn [app] in E.
    + exfalso. rewrite <- E in S. simpl in S. congruence.
    + injection E as _ E. destruct (IH m1 E F' S) as [I | R].
      * left. right. exact I.
      * right. exact R.
Qed.

Lemma dollarPattern_hyphen (s : str) (m : list str) :
  exec dollarPattern s = Some m ->
  exists o pre post,
    s = o ++ pre ++ chr "-" :: post
    /\ (o = [] \/ o = [chr "$"])
    /\ Forall (fun c => isMathSpace c = true) pre.
Proof.
  intros H. apply exec_sound in H. destruct H as [pieces [-> [F _]]].
  unfold dollarPattern in F. invert_pieces.
  repeat match goal with H : pieceOk _ _ |- _ => destruct H as [? ?] end.
  cbn [cls qt] in *. cbn [concat]. rewrite app_nil_r.
  match goal with
  | H : Forall (fun c => isChar "-" c = true) ?h |- _ =>
      destruct h as [|d [|? ?]]; try (simpl in *; lia);
      inversion H as [|? ? Hd _]; subst;
      apply N.eqb_eq in Hd; subst d
  end.
  match goal with
  | |- exists o pre post, ?o' ++ ?s1 ++ ?g ++ ?s2 ++ _ ++ ?s3 ++ ?t = _ /\ _ =>
      exists o', (s1 ++ g ++ s2), (s3 ++ t)
  end.
  split; [rewrite <- !app_assoc; reflexivity|]. split.
  - match goal with
    | H : Forall (fun c => isChar "$" c = true) ?o |- _ =>
        destruct o as [|d [|? ?]]; try (simpl in *; lia);
        [left; reflexivity|];
        inversion H as [|? ? Hd _]; subst; apply N.eqb_eq in Hd; subst d;
        right; reflexivity
    end.
  - repeat (apply Forall_app; split); try assumption;
      (eapply Forall_impl; [|eassumption]); apply isSpace_isMathSpace.
Qed.

(** The labeled pattern needs a hyphen in the part of the entry that reads
    as an amount. *)
Lemma dollarPattern_none (a t : str) :
  a <> [] -> Forall (fun c => isMathSpace c = true) a ->
  ~ In (chr "-") a -> stopsAt isMathSpace t ->
  exec dollarPattern (a ++ t) = None.
Proof.
  intros Na Fa Ha St.
  destruct (exec dollarPattern (a ++ t)) as [m|] eqn:E; [|reflexivity].
  exfalso. apply dollarPattern_hyphen in E.
  destruct E as [o [pre [post [E [[-> | ->] F]]]]].
  - cbn [app] in E. symmetry in E.
    destruct (@prefix_class isMathSpace _ _ _ _ _ E F St) as [I | [r R]].
    + exact (Ha I).
    + rewrite R in St. discriminate St.
  - destruct a as [|c a]; [contradiction|]. injection E as -> _.
    inversion Fa as [|? ? Pc _]. discriminate Pc.
Qed.

Lemma stopsAt_space (t : str) : stopsAt isMathSpace t -> stopsAt isSpace t.
Proof.
  destruct t as [|c t]; [auto|]. simpl. intros M.
  destruct (isSpace c) eqn:S; [|reflexivity].
  rewrite (isSpace_isMathSpace _ S) in M. discriminate.
Qed.

Lemma trim_stopsAt (t : str) : t <> [] -> stopsAt isSpace t -> trim t <> [].
Proof.
  intros N S E. apply trim_nil_iff in E.
  destruct t as [|c t]; [contradiction|]. simpl in S.
  inversion E; congruence.
Qed.

Lemma numberPattern_exec (a : str) (s : char) (t : str) :
  a <> [] -> Forall (fun c => isMathSpace c = true) a ->
  isSpace s = true ->
  t <> [] -> stopsAt isMathSpace t -> Forall (fun c => isDot c = true) t ->
  exec numberPattern (a ++ s :: t) = Some [a; t].
Proof.
  intros Na Fa Ps Nt St Ft. unfold exec, numberPattern.
  destruct a as [|c a]; [contradiction|].
  inversion Fa as [|? ? Pc Fa']; subst.
  cbn [matchNodes matchNode qt cls capture app]. rewrite Pc.
  apply greedy_longest; [exact Fa' | |].
  - cbn [rev app]. rewrite Ps.
    rewrite <- (app_nil_l t) at 1.
    apply greedy_stop; [constructor | apply stopsAt_space; exact St |].
    cbn [rev app]. apply (@last_plus isDot [c :: a] t); assumption.
  - intros x y E Nx Fx.
    destruct x as [|d x]; [contradiction|]. injection E as <- E.
    destruct x as [|e x].
    + cbn [app] in E. subst y. destruct t as [|e t]; [reflexivity|].
      apply stopsAt_space in St. simpl in St. rewrite St. reflexivity.
    + exfalso. rewrite E in St. simpl in St.
      inversion Fx as [|? ? _ Fx']; subst. inversion Fx'; subst. congruence.
Qed.

(** X7. An entry with no hyphen in its amount: when the trimmed input is an
    amount text [a] without hyphen, a white-space character, and a text [t]
    that starts with a character no amount can contain, the result is the
    one of evaluating [a] (white space inside [a] is dropped, so that
    [45 2 tires] is 452) with [t] as title. *)
Theorem parseLineItem_spaced_entry (input a : str) (s : char) (t : str) :
  trim input = a ++ s :: t ->
  a <> [] -> Forall (fun c => isMathSpace c = true) a ->
  ~ In (chr "-") a -> isSpace s = true ->
  t <> [] -> stopsAt isMathSpace t -> Forall (fun c => isDot c = true) t ->
  parseLineItem input = amountResult (trim a) (trim t).
Proof.
  intros T Na Fa Ha Ps Nt St Ft.
  rewrite parseLineItem_ordered_choice, T.
  destruct (a ++ s :: t) as [|c r] eqn:E; [destruct a; discriminate E|].
  cbn [isEmpty firstMatch grammarPattern]. rewrite <- E.
  replace (a ++ s :: t) with ((a ++ [s]) ++ t)
    by (rewrite <- app_assoc; reflexivity).
  rewrite dollarPattern_none.
  - rewrite <- app_assoc. cbn [app]. rewrite numberPattern_exec by assumption.
    unfold grammarResult. cbn [group Nat.sub nth].
    pose proof (trim_stopsAt Nt (stopsAt_space _ St)) as N.
    destruct (trim t); [contradiction | reflexivity].
  - destruct a; discriminate.
  - apply Forall_app. split; [exact Fa|]. constructor; [|constructor].
    apply isSpace_isMathSpace. exact Ps.
  - intros I. apply in_app_iff in I. destruct I as [I | [I | []]].
    + exact (Ha I).
    + rewrite I in Ps. discriminate Ps.
  - exact St.
Qed.

Lemma parseLineItem_spaced_entry_witness :
  parseLineItem (lit "45 2 tires") = amountResult (lit "45 2") (lit "tires").
Proof.
  apply (@parseLineItem_spaced_entry (lit "45 2 tires") (lit "45 2")
           (chr " ") (lit "tires")).
  - reflexivity.
  - discriminate.
  - repeat constructor.
  - simpl. intros H. repeat (destruct H as [H|H]; [discriminate|]). exact H.
  - reflexivity.
  - discriminate.
  - reflexivity.
  - repeat constructor.
Defined.

Lemma isMath_not_space (c : char) : isMath c = true -> isSpace c = false.
Proof.
  intros H. assert (R : (42 <= c <= 57)%N).
  { unfold isMath, isDigit, isPlusMinus, isTimesDiv, isChar, char_eqb, chr in H.
    simpl N_of_ascii in H.
    repeat (apply orb_true_iff in H; destruct H as [H|H]);
      try (apply andb_true_iff in H; destruct H as [H1 H2];
           apply N.leb_le in H1, H2; lia);
      apply N.eqb_eq in H; lia. }
  unfold isSpace.
  replace (c <=? 13)%N with false by (symmetry; apply N.leb_gt; lia).
  replace (8192 <=? c)%N with false by (symmetry; apply N.leb_gt; lia).
  repeat match goal with
         | |- context [(c =? ?b)%N] =>
             replace (c =? b)%N with false
               by (symmetry; apply N.eqb_neq; lia)
         end.
  rewrite andb_false_r. reflexivity.
Qed.

Lemma trim_fixed (s : str) :
  stopsAt isSpace s -> stopsAt isSpace (rev s) -> trim s = s.
Proof.
  intros H R. unfold trim.
  rewrite (dropWhile_fixed isSpace s H).
  rewrite (dropWhile_fixed isSpace (rev s) R).
  apply rev_involutive.
Qed.

Lemma stopsAt_Forall (p : char -> bool) (s : str) :
  Forall (fun c => p c = false) s -> stopsAt p s.
Proof. intros F. destruct F; simpl; auto. Qed.

Lemma numberPattern_none (a t : str) :
  Forall (fun c => isMath c = true) a -> stopsAt isMathSpace t ->
  exec numberPattern (a ++ t) = None.
Proof.
  intros Fa St.
  destruct (exec numberPattern (a ++ t)) as [m|] eqn:E; [|reflexivity].
  exfalso. apply exec_sound in E. destruct E as [pieces [E [F _]]].
  unfold numberPattern in F. invert_pieces.
  repeat match goal with H : pieceOk _ _ |- _ => destruct H as [? ?] end.
  cbn [cls qt] in *. cbn [concat] in E. rewrite app_nil_r in E.
  match goal with
  | H : Forall (fun c => isSpace c = true) ?w |- _ =>
      destruct w as [|x w]; [simpl in *; lia|];
      inversion H as [|? ? Px _]; subst
  end.
  cbn [app] in E. symmetry in E.
  match goal with
  | G : Forall (fun c => isMathSpace c = true) _ |- _ =>
      destruct (@prefix_class isMathSpace _ _ _ _ _ E G St) as [I | [r R]]
  end.
  - rewrite Forall_forall in Fa.
    rewrite (isMath_not_space _ (Fa x I)) in Px. discriminate.
  - rewrite R in St. simpl in St.
    rewrite (isSpace_isMathSpace _ Px) in St. discriminate.
Qed.

Lemma simplePattern_exec (a t : str) :
  a <> [] -> Forall (fun c => isMathSpace c = true) a ->
  stopsAt isMathSpace t -> Forall (fun c => isDot c = true) t ->
  exec simplePattern (a ++ t) = Some [a; t].
Proof.
  intros Na Fa St Ft. unfold exec, simplePattern.
  destruct a as [|c a]; [contradiction|].
  inversion Fa as [|? ? Pc Fa']; subst.
  cbn [matchNodes matchNode qt cls capture app]. rewrite Pc.
  apply greedy_stop; [exact Fa' | exact St |].
  cbn [rev app]. rewrite <- (app_nil_r t) at 1.
  apply greedy_stop; [exact Ft | exact I | reflexivity].
Qed.

(** X8. An entry with neither hyphen nor white space in its amount: when
    the trimmed input is an amount text [a] of digits, points and the
    operators other than the hyphen, followed at once by a text [t] that is
    empty or starts with a character no amount can contain, the result is
    the one of evaluating [a], with [t] as title, or ['Expense'] when [t]
    is empty. *)
Theorem parseLineItem_bare_entry (input a t : str) :
  trim input = a ++ t ->
  a <> [] -> Forall (fun c => isMath c = true) a -> ~ In (chr "-") a ->
  stopsAt isMathSpace t -> Forall (fun c => isDot c = true) t ->
  parseLineItem input
  = amountResult a (if isEmpty t then lit "Expense" else t).
Proof.
  intros T Na Fa Ha St Ft.
  assert (Fa' : Forall (fun c => isMathSpace c = true) a).
  { eapply Forall_impl; [|exact Fa]. intros c M. unfold isMathSpace.
    rewrite M. reflexivity. }
  assert (Ta : trim a = a).
  { assert (Fs : Forall (fun c => isSpace c = false) a).
    { eapply Forall_impl; [|exact Fa]. apply isMath_not_space. }
    apply trim_fixed; apply stopsAt_Forall; [exact Fs|].
    apply Forall_rev. exact Fs. }
  assert (Tt : trim t = t).
  { apply trim_fixed; [apply stopsAt_space; exact St|].
    destruct (rev t) as [|c r] eqn:R; [exact I|]. simpl.
    assert (E : t = rev r ++ [c]).
    { rewrite <- (rev_involutive t), R. reflexivity. }
    rewrite E, app_assoc in T. eapply trim_last. exact T. }
  rewrite parseLineItem_ordered_choice, T.
  destruct (a ++ t) as [|c r] eqn:E;
    [destruct a; [contradiction | discriminate E]|].
  cbn [isEmpty firstMatch grammarPattern]. rewrite <- E.
  rewrite dollarPattern_none, numberPattern_none, simplePattern_exec
    by assumption.
  unfold grammarResult. cbn [group Nat.sub nth]. rewrite Ta, Tt.
  reflexivity.
Qed.

Lemma parseLineItem_bare_entry_witness :
  parseLineItem (lit "12.5*4") = amountResult (lit "12.5*4") (lit "Expense").
Proof.
  apply (@parseLineItem_bare_entry (lit "12.5*4") (lit "12.5*4") []).
  - reflexivity.
  - discriminate.
  - repeat constructor.
  - simpl. intros H. repeat (destruct H as [H|H]; [discriminate|]). exact H.
  - exact I.
  - constructor.
Defined.

(** * The writing operations of the store *)

Lemma find_snoc (A : Type) (p : A -> bool) (l : list A) (x : A) :
  find p (l ++ [x])
  = match find p l with
    | Some y => Some y
    | None => if p x then Some x else None
    end.
Proof.
  induction l as [|y l IH]; simpl; [reflexivity|].
  destruct (p y); [reflexivity | exact IH].
Qed.

Lemma find_none_Forall (A : Type) (p : A -> bool) (l : list A) :
  Forall (fun x => p x = false) l -> find p l = None.
Proof.
  induction 1 as [|x l Px F IH]; simpl; [reflexivity|].
  rewrite Px. exact IH.
Qed.

Lemma computeTotals_missing (db : Database) (flipId : Z) :
  getFlipById db flipId = None -> computeTotals db flipId = Throw flipNotFound.
Proof. intros H. unfold computeTotals. rewrite H. reflexivity. Qed.

(** [computeTotals] reads the flip and the sum of its line items, and
    nothing else. *)
Lemma computeTotals_ext (db1 db2 : Database) (id1 id2 : Z) :
  getFlipById db1 id1 = getFlipById db2 id2 ->
  sumOf LineItem.amount (itemsOfFlip db1 id1)
  = sumOf LineItem.amount (itemsOfFlip db2 id2) ->
  computeTotals db1 id1 = computeTotals db2 id2.
Proof.
  intros F S. destruct (getFlipById db2 id2) as [f|] eqn:G.
  - rewrite (computeTotals_stored _ _ F), (computeTotals_stored _ _ G), S.
    reflexivity.
  - rewrite (computeTotals_missing _ _ F), (computeTotals_missing _ _ G).
    reflexivity.
Qed.

Lemma wfStore_fresh_flip (st : Store) :
  wfStore st ->
  getFlipById (tables st) (flips_seq st + 1) = None
  /\ itemsOfFlip (tables st) (flips_seq st + 1) = [].
Proof.
  intros [Ff [_ [Fi _]]]. split.
  - apply find_none_Forall. eapply Forall_impl; [|exact Ff].
    intros f H. cbn beta in *. apply Z.eqb_neq. lia.
  - unfold itemsOfFlip. induction Fi as [|i l [_ H] Fi IH]; [reflexivity|].
    simpl. replace (LineItem.flip_id i =? flips_seq st + 1)%Z with false
      by (symmetry; apply Z.eqb_neq; lia).
    exact IH.
Qed.

Lemma orZero_numberOrNull (x : option number) :
  orZero (numberOrNull x) = orZero x.
Proof.
  destruct x as [v|]; [|reflexivity]. simpl.
  destruct (eqb v 0) eqn:E; [|reflexivity].
  apply eqb_eq in E. rewrite E. reflexivity.
Qed.

(** X9. [createFlip] on a store whose keys are in order: the returned id was
    not in use, [getFlipById] finds under it the new row (absent values,
    [0] and the empty string stored as [NULL]); the new flip has no line
    item, so its total cost is 0 and its profit its sale price, if any,
    less its purchase price; every other id reads as before. *)
Theorem createFlip_stores (st : Store) (now : str) (flip : NewFlip.t) :
  wfStore st ->
  let id := fst (createFlip st now flip) in
  let st' := snd (createFlip st now flip) in
  getFlipById (tables st) id = None
  /\ getFlipById (tables st') id
     = Some (Flip.mk id
               (intOrNull (NewFlip.year flip))
               (textOrNull (NewFlip.make flip))
               (textOrNull (NewFlip.model flip))
               (textOrNull (NewFlip.vin flip))
               (intOrNull (NewFlip.miles flip))
               (NewFlip.buy_price flip)
               (numberOrNull (NewFlip.sell_price flip))
               (textOrNull (NewFlip.sold_date flip))
               now now)
  /\ getLineItemsByFlip (tables st') id = []
  /\ (exists t, computeTotals (tables st') id = Return t
                /\ totalCost t = 0%Qc
                /\ profit t = (orZero (NewFlip.sell_price flip)
                               - NewFlip.buy_price flip)%Qc)
  /\ (forall other, other <> id ->
        getFlipById (tables st') other = getFlipById (tables st) other
        /\ getLineItemsByFlip (tables st') other
           = getLineItemsByFlip (tables st) other
        /\ computeTotals (tables st') other
           = computeTotals (tables st) other).
Proof.
  intros W id st'. destruct (wfStore_fresh_flip W) as [Fr It].
  assert (G : getFlipById (tables st') id
              = Some (Flip.mk id
                        (intOrNull (NewFlip.year flip))
                        (textOrNull (NewFlip.make flip))
                        (textOrNull (NewFlip.model flip))
                        (textOrNull (NewFlip.vin flip))
                        (intOrNull (NewFlip.miles flip))
                        (NewFlip.buy_price flip)
                        (numberOrNull (NewFlip.sell_price flip))
                        (textOrNull (NewFlip.sold_date flip))
                        now now)).
  { unfold getFlipById, st', id, createFlip.
    cbn [fst snd tables flips_table]. rewrite find_snoc.
    unfold getFlipById in Fr. rewrite Fr. cbn [Flip.id].
    rewrite Z.eqb_refl. reflexivity. }
  assert (L : forall x, getLineItemsByFlip (tables st') x
                        = getLineItemsByFlip (tables st) x) by reflexivity.
  assert (It' : itemsOfFlip (tables st') id = []) by exact It.
  split; [exact Fr|]. split; [exact G|]. split.
  { rewrite L.
    change (orderByCreatedAt (itemsOfFlip (tables st) (flips_seq st + 1))
            = []).
    rewrite It. reflexivity. }
  split.
  { eexists. split; [apply (computeTotals_stored _ _ G)|].
    cbn [totalCost profit Flip.buy_price Flip.sell_price].
    rewrite It', orZero_numberOrNull. cbn [sumOf]. split; [reflexivity|].
    ring. }
  intros other N.
  assert (G' : getFlipById (tables st') other = getFlipById (tables st) other).
  { unfold getFlipById, st', createFlip.
    cbn [fst snd tables flips_table]. rewrite find_snoc.
    destruct (find _ (flips_table (tables st))); [reflexivity|].
    cbn [Flip.id].
    replace (flips_seq st + 1 =? other)%Z with false; [reflexivity|].
    symmetry. apply Z.eqb_neq. intros E. apply N. rewrite <- E.
    reflexivity. }
  split; [exact G'|]. split; [apply L|].
  apply computeTotals_ext; [exact G' | reflexivity].
Qed.

Ltac wf_by_evaluation :=
  unfold wfStore; cbn;
  repeat match goal with
         | |- _ /\ _ => split
         | |- Forall _ _ => constructor
         | |- NoDup _ => constructor
         | |- ~ In _ _ => cbn; intros H
         | H : _ \/ _ |- _ => destruct H
         | H : False |- _ => destruct H
         | H : @eq Z _ _ |- _ => discriminate H
         | |- (_ <= _)%Z => discriminate
         end.

Lemma createFlip_stores_witness :
  getFlipById
    (tables (snd (createFlip sampleStore (lit "2024-04-01T08:00:00.000Z")
                    (NewFlip.mk (Some 2008%Z) (Some (lit "Honda")) (Some [])
                                None (Some 0%Z) (numZ 1800) None None))))
    2
  = Some (Flip.mk 2 (Some 2008%Z) (Some (lit "Honda")) None None None
                  (numZ 1800) None None
                  (lit "2024-04-01T08:00:00.000Z")
                  (lit "2024-04-01T08:00:00.000Z")).
Proof.
  refine (proj1 (proj2 (@createFlip_stores sampleStore _ _ _))).
  wf_by_evaluation.
Defined.

Lemma itemsOfFlip_addLineItem (st : Store) (now : str) (li : NewLineItem.t)
      (flipId : Z) :
  itemsOfFlip (tables (snd (addLineItem st now li))) flipId
  = itemsOfFlip (tables st) flipId
    ++ (if (NewLineItem.flip_id li =? flipId)%Z
        then [LineItem.mk (line_items_seq st + 1)
                          (NewLineItem.flip_id li)
                          (NewLineItem.title li)
                          (NewLineItem.amount li)
                          (NewLineItem.category li)
                          (textOrNull (NewLineItem.date li))
                          now now]
        else []).
Proof.
  unfold itemsOfFlip, addLineItem. cbn [snd tables line_items_table].
  rewrite filter_app. reflexivity.
Qed.






Lemma filter_all (A : Type) (p : A -> bool) (l : list A) :
  Forall (fun x => p x = true) l -> filter p l = l.
Proof.
  induction 1 as [|x l Px F IH]; simpl; [reflexivity|].
  rewrite Px, IH. reflexivity.
Qed.

(** X12. [deleteLineItem] takes back an [addLineItem]: in a store whose keys
    are in order, deleting the id that [addLineItem] returned leaves the
    tables as they were before the insertion (the counter of the table
    keeps its new value, so the id is not given out again); and deleting an
    id that no row has changes nothing. *)
Theorem deleteLineItem_inverts_addLineItem (st : Store) (now : str)
        (li : NewLineItem.t) :
  wfStore st ->
  tables (deleteLineItem (snd (addLineItem st now li))
                         (fst (addLineItem st now li)))
  = tables st
  /\ line_items_seq (deleteLineItem (snd (addLineItem st now li))
                                    (fst (addLineItem st now li)))
     = (line_items_seq st + 1)%Z
  /\ (forall id,
        ~ In id (map LineItem.id (line_items_table (tables st))) ->
        tables (deleteLineItem st id) = tables st).
Proof.
  intros [_ [_ [Fi _]]]. split; [|split; [reflexivity|]].
  - unfold deleteLineItem, addLineItem.
    cbn [fst snd tables flips_table line_items_table].
    rewrite filter_app. cbn [filter LineItem.id]. rewrite Z.eqb_refl.
    cbn [negb]. rewrite app_nil_r, filter_all.
    + destruct (tables st). reflexivity.
    + eapply Forall_impl; [|exact Fi]. intros i [H _]. cbn beta.
      apply negb_true_iff. apply Z.eqb_neq. lia.
  - intros id N. unfold deleteLineItem. cbn [tables].
    rewrite filter_all; [destruct (tables st); reflexivity|].
    apply Forall_forall. intros i I. apply negb_true_iff. apply Z.eqb_neq.
    intros E. apply N. rewrite <- E. apply in_map. exact I.
Qed.

Lemma deleteLineItem_inverts_addLineItem_witness :
  tables (deleteLineItem
            (snd (addLineItem sampleStore (lit "2024-04-01T08:00:00.000Z")
                    (NewLineItem.mk 1 (lit "thermostat") (numZ 95)
                                    (Some parts) None)))
            3)
  = tables sampleStore.
Proof.
  refine (proj1 (@deleteLineItem_inverts_addLineItem sampleStore _ _ _)).
  wf_by_evaluation.
Defined.

Lemma NoDup_snoc (A : Type) (l : list A) (x : A) :
  NoDup l -> ~ In x l -> NoDup (l ++ [x]).
Proof.
  intros ND N. apply (Permutation_NoDup (l := x :: l)).
  - apply Permutation_cons_append.
  - constructor; assumption.
Qed.

(** Deleting rows keeps the ids of the others distinct. *)
Lemma line_item_ids_kept (keep : LineItem -> bool) (rows : list LineItem) :
  NoDup (map LineItem.id rows) ->
  NoDup (map LineItem.id (filter keep rows)).
Proof.
  intros ND. induction rows as [|row rows IH]; [constructor|].
  cbn [map] in ND. apply NoDup_cons_iff in ND. destruct ND as [N ND].
  cbn [filter]. destruct (keep row); [|exact (IH ND)].
  cbn [map]. apply NoDup_cons; [|exact (IH ND)].
  intros I. apply N. apply in_map_iff in I. destruct I as [other [E I]].
  apply filter_In in I. rewrite <- E. apply in_map. apply I.
Qed.

Lemma wfStore_createFlip (st : Store) (now : str) (flip : NewFlip.t) :
  wfStore st -> wfStore (snd (createFlip st now flip)).
Proof.
  intros [Ff [Nf [Fi Ni]]]. unfold wfStore, createFlip.
  cbn [snd tables flips_table line_items_table flips_seq line_items_seq].
  split; [|split; [|split]].
  - apply Forall_app. split.
    + eapply Forall_impl; [|exact Ff]. intros f H. cbn beta in *. lia.
    + constructor; [|constructor]. cbn [Flip.id]. lia.
  - rewrite map_app. cbn [map Flip.id]. apply NoDup_snoc; [exact Nf|].
    intros I. apply in_map_iff in I. destruct I as [f [E I]].
    rewrite Forall_forall in Ff. specialize (Ff f I). cbn beta in Ff. lia.
  - eapply Forall_impl; [|exact Fi]. intros i [H1 H2]. split; lia.
  - exact Ni.
Qed.

Lemma wfStore_addLineItem (st : Store) (now : str) (li : NewLineItem.t) :
  wfStore st -> (NewLineItem.flip_id li <= flips_seq st)%Z ->
  wfStore (snd (addLineItem st now li)).
Proof.
  intros [Ff [Nf [Fi Ni]]] H. unfold wfStore, addLineItem.
  cbn [snd tables flips_table line_items_table flips_seq line_items_seq].
  split; [exact Ff|]. split; [exact Nf|]. split.
  - apply Forall_app. split.
    + eapply Forall_impl; [|exact Fi]. intros i [H1 H2]. split; lia.
    + constructor; [|constructor]. cbn [LineItem.id LineItem.flip_id].
      split; lia.
  - rewrite map_app. cbn [map LineItem.id]. apply NoDup_snoc; [exact Ni|].
    intros I. apply in_map_iff in I. destruct I as [i [E I]].
    rewrite Forall_forall in Fi. destruct (Fi i I) as [H1 _]. lia.
Qed.

Lemma wfStore_deleteLineItem (st : Store) (id : Z) :
  wfStore st -> wfStore (deleteLineItem st id).
Proof.
  intros [Ff [Nf [Fi Ni]]]. unfold wfStore, deleteLineItem.
  cbn [tables flips_table line_items_table flips_seq line_items_seq].
  split; [exact Ff|]. split; [exact Nf|]. split.
  - apply Forall_forall. intros i I. apply filter_In in I.
    rewrite Forall_forall in Fi. apply Fi. apply I.
  - apply line_item_ids_kept. exact Ni.
Qed.

Lemma copyLineItems_flips_seq (items : list LineItem) (st : Store)
      (clock : nat -> str) (k : nat) (newFlipId : Z) :
  flips_seq (copyLineItems st clock k newFlipId items) = flips_seq st.
Proof.
  revert st k. induction items as [|item items IH]; intros st k;
    [reflexivity|].
  cbn [copyLineItems]. rewrite IH. reflexivity.
Qed.

Lemma wfStore_copyLineItems (items : list LineItem) (st : Store)
      (clock : nat -> str) (k : nat) (newFlipId : Z) :
  wfStore st -> (newFlipId <= flips_seq st)%Z ->
  wfStore (copyLineItems st clock k newFlipId items).
Proof.
  revert st k. induction items as [|item items IH]; intros st k W H;
    [exact W|].
  cbn [copyLineItems]. apply IH.
  - apply wfStore_addLineItem; [exact W | exact H].
  - exact H.
Qed.

(** The flip that [duplicateFlip] hands to [createFlip]. *)
Lemma duplicateFlip_stored (st : Store) (clock : nat -> str) (id : Z)
      (f : Flip) :
  getFlipById (tables st) id = Some f ->
  duplicateFlip st clock id
  = Return
      ((flips_seq st + 1)%Z,
       copyLineItems
         (snd (createFlip st (clock 0%nat)
                 (NewFlip.mk (Flip.year f) (Flip.make f) (Flip.model f)
                             (Flip.vin f) (Flip.miles f) (Flip.buy_price f)
                             None None)))
         clock 1 (flips_seq st + 1) (getLineItemsByFlip (tables st) id)).
Proof. intros F. unfold duplicateFlip. rewrite F. reflexivity. Qed.

(** X13. The order of the keys is kept by every writing operation:
    [createFlip], [addLineItem] for a flip id that has been given out,
    [deleteLineItem] and a successful [duplicateFlip] take a store whose
    keys are in order to another one. *)
Theorem wfStore_preserved (st : Store) :
  wfStore st ->
  (forall now flip, wfStore (snd (createFlip st now flip)))
  /\ (forall now li, (NewLineItem.flip_id li <= flips_seq st)%Z ->
                     wfStore (snd (addLineItem st now li)))
  /\ (forall id, wfStore (deleteLineItem st id))
  /\ (forall clock id n st',
         duplicateFlip st clock id = Return (n, st') -> wfStore st').
Proof.
  intros W. split; [|split; [|split]].
  - intros now flip. apply wfStore_createFlip. exact W.
  - intros now li H. apply wfStore_addLineItem; assumption.
  - intros id. apply wfStore_deleteLineItem. exact W.
  - intros clock id n st' D.
    destruct (getFlipById (tables st) id) as [f|] eqn:F.
    + rewrite (duplicateFlip_stored _ clock _ F) in D.
      pose proof
        (@wfStore_copyLineItems (getLineItemsByFlip (tables st) id) _ clock 1
           (flips_seq st + 1)
           (@wfStore_createFlip st (clock 0%nat)
              (NewFlip.mk (Flip.year f) (Flip.make f) (Flip.model f)
                          (Flip.vin f) (Flip.miles f) (Flip.buy_price f)
                          None None) W)
           (Z.le_refl _)) as X.
      injection D as _ <-. exact X.
    + unfold duplicateFlip in D. rewrite F in D. discriminate D.
Qed.

Lemma wfStore_preserved_witness :
  wfStore (snd (addLineItem sampleStore (lit "2024-04-01T08:00:00.000Z")
                  (NewLineItem.mk 1 (lit "thermostat") (numZ 95)
                                  (Some parts) None))).
Proof.
  refine (proj1 (proj2 (@wfStore_preserved sampleStore _)) _ _ _).
  - wf_by_evaluation.
  - discriminate.
Defined.

Lemma textOrNull_idempotent (x : option str) :
  textOrNull (textOrNull x) = textOrNull x.
Proof.
  destruct x as [s|]; [|reflexivity]. simpl.
  destruct (isEmpty s) eqn:E; [reflexivity|]. simpl. rewrite E. reflexivity.
Qed.

(** The loop of [duplicateFlip] appends one row for each item, with the
    content of the item and the id of the new flip. *)
Lemma copyLineItems_rows (items : list LineItem) (st : Store)
      (clock : nat -> str) (k : nat) (newFlipId : Z) :
  exists rows,
    tables (copyLineItems st clock k newFlipId items)
    = mkDatabase (flips_table (tables st))
                 (line_items_table (tables st) ++ rows)
    /\ Forall (fun r => LineItem.flip_id r = newFlipId) rows
    /\ map itemContent rows = map itemContent items.
Proof.
  revert st k. induction items as [|item items IH]; intros st k.
  - exists []. rewrite app_nil_r. cbn [copyLineItems].
    destruct (tables st). repeat split. constructor.
  - cbn [copyLineItems].
    destruct (IH (snd (addLineItem st (clock k)
                         (NewLineItem.mk newFlipId (LineItem.title item)
                            (LineItem.amount item) (LineItem.category item)
                            (LineItem.date item)))) (S k))
      as [rows [E [F M]]].
    eexists (_ :: rows). rewrite E. split; [|split].
    + cbn [addLineItem snd tables flips_table line_items_table].
      rewrite <- app_assoc. reflexivity.
    + constructor; [reflexivity | exact F].
    + cbn [map]. rewrite M. f_equal. unfold itemContent.
      cbn [LineItem.title LineItem.amount LineItem.category LineItem.date
           NewLineItem.title NewLineItem.amount NewLineItem.category
           NewLineItem.date].
      rewrite textOrNull_idempotent. reflexivity.
Qed.

Lemma filter_flip_id (rows : list LineItem) (newFlipId id : Z) :
  Forall (fun r => LineItem.flip_id r = newFlipId) rows ->
  filter (fun i => (LineItem.flip_id i =? id)%Z) rows
  = if (newFlipId =? id)%Z then rows else [].
Proof.
  induction 1 as [|r rows E F IH]; simpl.
  - destruct (newFlipId =? id)%Z; reflexivity.
  - rewrite E, IH. destruct (newFlipId =? id)%Z; reflexivity.
Qed.

Lemma sumOf_itemContent (l1 l2 : list LineItem) :
  map itemContent l1 = map itemContent l2 ->
  sumOf LineItem.amount l1 = sumOf LineItem.amount l2.
Proof.
  revert l2. induction l1 as [|x l1 IH]; intros [|y l2] E;
    try discriminate E; [reflexivity|].
  cbn [map] in E. injection E as _ A _ _ E. cbn [sumOf].
  rewrite A, (IH l2 E). reflexivity.
Qed.

(** X14. [duplicateFlip] of a stored flip, in a store whose keys are in
    order: it returns an id that was not in use; under that id there is a
    flip with the vehicle and the purchase price of the original and
    without sale price and sale date; its line items are those of the
    original, up to their order, in title, amount, category and date; so
    its total cost is the one of the original and its profit is
    minus what was invested; every other id reads as before. *)
Theorem duplicateFlip_copies (st : Store) (clock : nat -> str) (id : Z)
        (f : Flip) :
  wfStore st ->
  getFlipById (tables st) id = Some f ->
  let newId := (flips_seq st + 1)%Z in
  exists st',
    duplicateFlip st clock id = Return (newId, st')
    /\ getFlipById (tables st) newId = None
    /\ getFlipById (tables st') newId
       = Some (Flip.mk newId
                 (intOrNull (Flip.year f)) (textOrNull (Flip.make f))
                 (textOrNull (Flip.model f)) (textOrNull (Flip.vin f))
                 (intOrNull (Flip.miles f)) (Flip.buy_price f) None None
                 (clock 0%nat) (clock 0%nat))
    /\ Permutation
         (map itemContent (getLineItemsByFlip (tables st') newId))
         (map itemContent (getLineItemsByFlip (tables st) id))
    /\ (forall t, computeTotals (tables st) id = Return t ->
          exists t',
            computeTotals (tables st') newId = Return t'
            /\ totalCost t' = totalCost t
            /\ profit t' = (- (Flip.buy_price f + totalCost t))%Qc)
    /\ (forall other, other <> newId ->
          getFlipById (tables st') other = getFlipById (tables st) other
          /\ itemsOfFlip (tables st') other = itemsOfFlip (tables st) other
          /\ computeTotals (tables st') other
             = computeTotals (tables st) other).
Proof.
  intros W F newId. destruct (wfStore_fresh_flip W) as [Fr It].
  rewrite (duplicateFlip_stored _ clock _ F). fold newId.
  set (st1 := snd (createFlip st (clock 0%nat)
                     (NewFlip.mk (Flip.year f) (Flip.make f) (Flip.model f)
                        (Flip.vin f) (Flip.miles f) (Flip.buy_price f)
                        None None))).
  destruct (copyLineItems_rows (getLineItemsByFlip (tables st) id)
              st1 clock 1 newId) as [rows [E [Fl M]]].
  eexists. split; [reflexivity|]. rewrite E. clear E.
  set (row := Flip.mk newId
                (intOrNull (Flip.year f)) (textOrNull (Flip.make f))
                (textOrNull (Flip.model f)) (textOrNull (Flip.vin f))
                (intOrNull (Flip.miles f)) (Flip.buy_price f)
                None None (clock 0%nat) (clock 0%nat)).
  change (flips_table (tables st1)) with (flips_table (tables st) ++ [row]).
  change (line_items_table (tables st1)) with (line_items_table (tables st)).
  set (db' := mkDatabase (flips_table (tables st) ++ [row])
                         (line_items_table (tables st) ++ rows)).
  assert (G : getFlipById db' newId = Some row).
  { unfold getFlipById, db'. cbn [flips_table]. rewrite find_snoc.
    unfold getFlipById in Fr. fold newId in Fr. rewrite Fr.
    unfold row. cbn [Flip.id]. rewrite Z.eqb_refl. reflexivity. }
  assert (G' : forall other, other <> newId ->
                 getFlipById db' other = getFlipById (tables st) other).
  { intros other N. unfold getFlipById, db'. cbn [flips_table].
    rewrite find_snoc. destruct (find _ (flips_table (tables st)));
      [reflexivity|].
    unfold row. cbn [Flip.id].
    replace (newId =? other)%Z with false; [reflexivity|].
    symmetry. apply Z.eqb_neq. congruence. }
  assert (A : forall x, itemsOfFlip db' x
                        = itemsOfFlip (tables st) x
                          ++ (if (newId =? x)%Z then rows else [])).
  { intros x. unfold itemsOfFlip, db'. cbn [line_items_table].
    rewrite filter_app, (filter_flip_id x Fl). reflexivity. }
  assert (An : itemsOfFlip db' newId = rows).
  { rewrite A, Z.eqb_refl. fold newId in It. rewrite It. reflexivity. }
  assert (S : sumOf LineItem.amount rows
              = sumOf LineItem.amount (itemsOfFlip (tables st) id)).
  { rewrite (sumOf_itemContent _ _ M).
    apply sumOf_Permutation. apply getLineItemsByFlip_Permutation. }
  split; [exact Fr|]. split; [exact G|]. split; [|split].
  - rewrite <- M, <- An. apply Permutation_map.
    apply getLineItemsByFlip_Permutation.
  - intros t C. rewrite (computeTotals_stored _ _ F) in C.
    injection C as <-. eexists.
    split; [apply (computeTotals_stored _ _ G)|].
    cbn [totalCost profit]. rewrite An, S. unfold row.
    cbn [Flip.buy_price Flip.sell_price orZero].
    split; [reflexivity | ring].
  - intros other N.
    assert (Ao : itemsOfFlip db' other = itemsOfFlip (tables st) other).
    { rewrite A. replace (newId =? other)%Z with false.
      - apply app_nil_r.
      - symmetry. apply Z.eqb_neq. congruence. }
    split; [apply G'; exact N|]. split; [exact Ao|].
    apply computeTotals_ext; [apply G'; exact N | rewrite Ao; reflexivity].
Qed.

Lemma duplicateFlip_copies_witness :
  exists st',
    duplicateFlip sampleStore (fun _ => lit "2024-04-01T08:00:00.000Z") 1
    = Return (2%Z, st')
    /\ getFlipById (tables sampleStore) 2 = None.
Proof.
  destruct (@duplicateFlip_copies sampleStore
              (fun _ => lit "2024-04-01T08:00:00.000Z") 1 sampleFlip)
    as [st' [D [Fr _]]].
  - wf_by_evaluation.
  - reflexivity.
  - exists st'. split; [exact D | exact Fr].
Defined.

(** * The data of the reports *)














Lemma computeTotals_throws (db : Database) (flipId : Z) (e : str) :
  computeTotals db flipId = Throw e ->
  e = flipNotFound /\ getFlipById db flipId = None.
Proof.
  unfold computeTotals. destruct (getFlipById db flipId); [discriminate|].
  intros E. injection E as <-. split; reflexivity.
Qed.

Lemma collectFlips_throws (db : Database) (flips : list Flip) (r : Running)
      (e : str) :
  collectFlips db flips r = Throw e ->
  e = flipNotFound
  /\ exists f, In f flips /\ getFlipById db (Flip.id f) = None.
Proof.
  revert r. induction flips as [|f flips IH]; intros r H; [discriminate H|].
  cbn [collectFlips] in H.
  destruct (computeTotals db (Flip.id f)) as [t|e'] eqn:C.
  - apply IH in H. destruct H as [-> [g [I G]]].
    split; [reflexivity|]. exists g. split; [right; exact I | exact G].
  - injection H as <-. apply computeTotals_throws in C. destruct C as [-> G].
    split; [reflexivity|]. exists f. split; [left; reflexivity | exact G].
Qed.

(** X17. How [exportCompleteTaxReport] fails: with no flip in the list
    nothing is exported (the alert ['No Data']); with a flip in the list
    that the store does not have, the export is abandoned on ['Flip not
    found'], and this is the only error that arises while the data are
    collected. *)
Theorem exportCompleteTaxReport_failures (db : Database) (flips : list Flip)
        (currentYear : Z) :
  (exportCompleteTaxReport db flips currentYear = NoData <-> flips = [])
  /\ (forall e,
        exportCompleteTaxReport db flips currentYear = ExportFailed e <->
        e = flipNotFound
        /\ exists f, In f flips /\ getFlipById db (Flip.id f) = None).
Proof.
  unfold exportCompleteTaxReport. destruct flips as [|f0 flips].
  - split.
    + split; reflexivity.
    + intros e. split; [discriminate|]. intros [_ [f [[] _]]].
  - set (fl := f0 :: flips).
    replace (length fl =? 0)%nat with false by reflexivity.
    destruct (collectFlips db fl (mkRunning [] 0 0 0 0 0)%Qc) as [r|e'] eqn:C.
    + split.
      * split; discriminate.
      * intros e. split; [discriminate|]. intros [_ [f [I G]]]. exfalso.
        destruct (collectFlips_sums _ _ _ C) as [fds [_ [M [F _]]]].
        rewrite <- M in I. apply in_map_iff in I. destruct I as [fd [<- I]].
        rewrite Forall_forall in F. specialize (F fd I).
        rewrite (computeTotals_missing _ _ G) in F. discriminate F.
    + split.
      * split; discriminate.
      * intros e. apply collectFlips_throws in C. destruct C as [-> X].
        split.
        -- intros E. injection E as <-. split; [reflexivity | exact X].
        -- intros [-> _]. reflexivity.
Qed.






Lemma underscoreRuns_no_space (s : str) (inRun : bool) :
  Forall (fun c => isSpace c = false) (underscoreRuns inRun s).
Proof.
  revert inRun. induction s as [|c s IH]; intros inRun; simpl; [constructor|].
  destruct (isSpace c) eqn:E.
  - destruct inRun; [apply IH|]. constructor; [reflexivity | apply IH].
  - constructor; [exact E | apply IH].
Qed.

(** X19. The name of the file of a tax report has no white space, whatever
    the year, the make and the model of the flip are, as long as the year
    of the report is printed without. *)
Theorem taxReportFileName_no_space (numberToString : Z -> str)
        (data : TaxExportData) :
  Forall (fun c => isSpace c = false) (numberToString (te_taxYear data)) ->
  Forall (fun c => isSpace c = false) (taxReportFileName numberToString data).
Proof.
  intros H. unfold taxReportFileName. repeat (apply Forall_app; split).
  - apply underscoreRuns_no_space.
  - repeat constructor.
  - exact H.
  - repeat constructor.
Qed.

Lemma taxReportFileName_no_space_witness :
  Forall (fun c => isSpace c = false)
         (taxReportFileName showZ
            (mkTaxExport sampleFlip [] (mkTotals 0 0 0)%Qc 2026)).
Proof.
  apply taxReportFileName_no_space. repeat constructor.
Defined.

(** * Dates and the list of the flips *)

Lemma Math_ceil_quotient (a b : Z) :
  (0 < b)%Z ->
  (b * (Math_ceil (numZ a / numZ b) - 1) < a
   <= b * Math_ceil (numZ a / numZ b))%Z.
Proof.
  intros B. unfold Math_ceil.
  assert (E : (this (numZ a / numZ b)%Qc == a # Z.to_pos b)%Q).
  { unfold numZ. cbn [this Qcdiv Qcmult Qcinv Q2Qc].
    rewrite !Qred_correct. unfold Qeq, Qmult, Qinv, inject_Z.
    cbn [Qnum Qden]. destruct b as [|p|p]; try lia.
    cbn [Qnum Qden Z.to_pos]. lia. }
  rewrite E. set (d := Qceiling (a # Z.to_pos b)).
  pose proof (Qle_ceiling (a # Z.to_pos b)) as U.
  pose proof (Qceiling_lt (a # Z.to_pos b)) as L.
  fold d in U, L. unfold Qle, Qlt, inject_Z in U, L. cbn [Qnum Qden] in U, L.
  rewrite Z2Pos.id in U, L by exact B. lia.
Qed.

(** X20. [getDaysToSell] counts the days that were begun: for a sale date
    that is set and two dates that the platform can read, the result [d] is
    the least number of whole days that cover the time from the creation
    to the sale (so a sale one millisecond after the creation counts one
    day, and a sale before the creation gives no positive count); without
    sale date the result is [null]. *)
Theorem getDaysToSell_bounds (getTime : str -> option Z)
        (createdAt soldDate : str) (created sold_ : Z) :
  soldDate <> [] ->
  getTime createdAt = Some created ->
  getTime soldDate = Some sold_ ->
  (exists d,
      getDaysToSell getTime createdAt (Some soldDate) = Some (Some d)
      /\ (86400000 * (d - 1) < sold_ - created <= 86400000 * d)%Z)
  /\ getDaysToSell getTime createdAt None = None
  /\ getDaysToSell getTime createdAt (Some []) = None.
Proof.
  intros N C S. split; [|split; reflexivity].
  unfold getDaysToSell. destruct soldDate as [|c r]; [contradiction|].
  cbn [isEmpty]. rewrite C, S. eexists. split; [reflexivity|].
  change (1000 * 60 * 60 * 24)%Z with 86400000%Z.
  apply Math_ceil_quotient. lia.
Qed.

Lemma getDaysToSell_bounds_witness :
  exists d,
    getDaysToSell (fun s => Some (Z.of_nat (length s) * 50000000)%Z)
                  (lit "a") (Some (lit "abcd"))
    = Some (Some d)
    /\ (86400000 * (d - 1) < 200000000 - 50000000 <= 86400000 * d)%Z.
Proof.
  refine (proj1 (@getDaysToSell_bounds
                   (fun s => Some (Z.of_nat (length s) * 50000000)%Z)
                   (lit "a") (lit "abcd") 50000000 200000000 _ _ _)).
  - discriminate.
  - reflexivity.
  - reflexivity.
Defined.

(** X21. The two tabs of the home screen split the flips: each flip of the
    list is shown under exactly one of [open] and [sold], a flip being sold
    when its sale date is set, whatever its sale price. *)
Theorem filteredFlips_split (flips : list Flip) :
  Permutation (filteredFlips flips open ++ filteredFlips flips sold) flips
  /\ (forall flip, In flip (filteredFlips flips open) ->
                   In flip (filteredFlips flips sold) -> False)
  /\ (forall flip, In flip (filteredFlips flips sold) <->
                   In flip flips /\ isSet (Flip.sold_date flip) = true).
Proof.
  split; [|split].
  - unfold filteredFlips. induction flips as [|f flips IH]; [constructor|].
    cbn [filter]. destruct (isSet (Flip.sold_date f)); cbn [negb app].
    + apply Permutation_sym. apply Permutation_cons_app.
      apply Permutation_sym. exact IH.
    + constructor. exact IH.
  - unfold filteredFlips. intros flip O S. apply filter_In in O, S.
    destruct O as [_ O], S as [_ S]. rewrite S in O. discriminate O.
  - unfold filteredFlips. intros flip. apply filter_In.
Qed.

Lemma getTotals_setTotals (o : TotalsRecord) (k k' : Z) (v : FlipTotals) :
  getTotals (setTotals o k v) k'
  = if (k =? k')%Z then Some v else getTotals o k'.
Proof.
  induction o as [|[j w] o IH]; cbn [setTotals getTotals].
  - reflexivity.
  - destruct (j =? k)%Z eqn:E; cbn [getTotals].
    + apply Z.eqb_eq in E. subst j. destruct (k =? k')%Z; reflexivity.
    + rewrite IH. destruct (j =? k')%Z eqn:E'; [|reflexivity].
      apply Z.eqb_eq in E'. subst j. rewrite Z.eqb_sym, E. reflexivity.
Qed.

(** X22. [loadFlipTotals] has totals for exactly the flips of the list that
    the store has: under the id of such a flip it holds what
    [computeTotals] returns for it; a flip that the store does not have is
    passed over, without effect on the others; an id that is not in the
    list has no entry. *)
Theorem loadFlipTotals_entries (db : Database) (flips : list Flip) (id : Z) :
  getTotals (loadFlipTotals db flips) id
  = if existsb (fun flip => (Flip.id flip =? id)%Z) flips
    then match computeTotals db id with
         | Return totalsData => Some totalsData
         | Throw _ => None
         end
    else None.
Proof.
  unfold loadFlipTotals.
  assert (G : forall acc,
             getTotals
               (fold_left
                  (fun totals flip =>
                     match computeTotals db (Flip.id flip) with
                     | Return totalsData =>
                         setTotals totals (Flip.id flip) totalsData
                     | Throw _ => totals
                     end) flips acc) id
             = match (if existsb (fun flip => (Flip.id flip =? id)%Z) flips
                      then match computeTotals db id with
                           | Return totalsData => Some totalsData
                           | Throw _ => None
                           end
                      else None) with
               | Some t => Some t
               | None => getTotals acc id
               end).
  { induction flips as [|f flips IH]; intros acc; [reflexivity|].
    cbn [fold_left existsb]. rewrite IH.
    destruct (Flip.id f =? id)%Z eqn:E; cbn [orb].
    - apply Z.eqb_eq in E. rewrite E.
      destruct (existsb _ flips);
        destruct (computeTotals db id) as [t|e]; try reflexivity.
      rewrite getTotals_setTotals, Z.eqb_refl. reflexivity.
    - destruct (existsb _ flips).
      + destruct (computeTotals db id) as [t|e]; [reflexivity|].
        destruct (computeTotals db (Flip.id f)); [|reflexivity].
        rewrite getTotals_setTotals, E. reflexivity.
      + destruct (computeTotals db (Flip.id f)); [|reflexivity].
        rewrite getTotals_setTotals, E. reflexivity. }
  rewrite G. destruct (existsb _ flips); [|reflexivity].
  destruct (computeTotals db id); reflexivity.
Qed.

Lemma addSampleItems_reads (items : list (str * number * Category))
      (st : Store) (clock : nat -> str) (k : nat) (flipId : Z) :
  (forall id, getFlipById (tables (addSampleItems st clock k flipId items)) id
              = getFlipById (tables st) id)
  /\ (forall id,
        sumOf LineItem.amount
          (itemsOfFlip (tables (addSampleItems st clock k flipId items)) id)
        = (sumOf LineItem.amount (itemsOfFlip (tables st) id)
           + if (flipId =? id)%Z
             then sumOf (fun x => snd (fst x)) items else 0)%Qc).
Proof.
  revert st k. induction items as [|[[title amount] category] items IH];
    intros st k.
  - split; [reflexivity|]. intros id. cbn [addSampleItems sumOf].
    destruct (flipId =? id)%Z; ring.
  - cbn [addSampleItems].
    destruct (IH (snd (addLineItem st (clock k)
                         (NewLineItem.mk flipId title amount (Some category)
                            None))) (S k)) as [G S].
    split.
    + intros id. rewrite G. reflexivity.
    + intros id. rewrite S, itemsOfFlip_addLineItem, sumOf_app.
      cbn [NewLineItem.flip_id sumOf fst snd].
      destruct (flipId =? id)%Z;
        cbn [sumOf LineItem.amount NewLineItem.amount]; ring.
Qed.

(** X23. [loadSampleData] on a store whose keys are in order adds one flip,
    sold, whose totals are: total cost 1030, profit 1670, return
    1670/4530; the totals of the flips that were there are as before. *)
Theorem loadSampleData_totals (st : Store) (clock : nat -> str) :
  wfStore st ->
  let flipId := fst (loadSampleData st clock) in
  let st' := snd (loadSampleData st clock) in
  getFlipById (tables st) flipId = None
  /\ computeTotals (tables st') flipId
     = Return (mkTotals (numZ 1030) (numZ 1670) (numZ 1670 / numZ 4530)%Qc)
  /\ (forall other, other <> flipId ->
        computeTotals (tables st') other = computeTotals (tables st) other).
Proof.
  intros W flipId st'. destruct (wfStore_fresh_flip W) as [Fr It].
  set (flip := NewFlip.mk (Some 2011%Z) (Some (lit "BMW")) (Some (lit "328i"))
                 None (Some 155000%Z) (numZ 3500) (Some (numZ 6200))
                 (Some (clock 0%nat))).
  set (st1 := snd (createFlip st (clock 1%nat) flip)).
  assert (E : st' = addSampleItems st1 clock 2 (flips_seq st + 1) sampleItems)
    by reflexivity.
  assert (Ef : flipId = (flips_seq st + 1)%Z) by reflexivity.
  destruct (addSampleItems_reads sampleItems st1 clock 2 (flips_seq st + 1))
    as [G S].
  rewrite <- E in G, S. rewrite Ef. clear E Ef.
  split; [exact Fr|]. split.
  - assert (F : exists row,
               getFlipById (tables st') (flips_seq st + 1) = Some row
               /\ Flip.buy_price row = numZ 3500
               /\ Flip.sell_price row = Some (numZ 6200)).
    { rewrite G. unfold getFlipById, st1, createFlip.
      cbn [snd tables flips_table]. rewrite find_snoc.
      unfold getFlipById in Fr. rewrite Fr. cbn [Flip.id].
      rewrite Z.eqb_refl. eexists. split; [reflexivity|].
      split; reflexivity. }
    destruct F as [row [F [B P]]].
    rewrite (computeTotals_stored _ _ F). cbv zeta.
    rewrite S, Z.eqb_refl, B, P.
    change (itemsOfFlip (tables st1) (flips_seq st + 1))
      with (itemsOfFlip (tables st) (flips_seq st + 1)).
    rewrite It. by_evaluation.
  - intros other N. apply computeTotals_ext.
    + rewrite G. unfold getFlipById, st1, createFlip.
      cbn [snd tables flips_table]. rewrite find_snoc.
      destruct (find _ (flips_table (tables st))); [reflexivity|].
      cbn [Flip.id].
      replace (flips_seq st + 1 =? other)%Z with false; [reflexivity|].
      symmetry. apply Z.eqb_neq. congruence.
    + rewrite S.
      replace (flips_seq st + 1 =? other)%Z with false
        by (symmetry; apply Z.eqb_neq; congruence).
      change (itemsOfFlip (tables st1) other)
        with (itemsOfFlip (tables st) other).
      ring.
Qed.

Lemma loadSampleData_totals_witness :
  computeTotals
    (tables (snd (loadSampleData sampleStore
                    (fun _ => lit "2024-04-01T08:00:00.000Z")))) 2
  = Return (mkTotals (numZ 1030) (numZ 1670) (numZ 1670 / numZ 4530)%Qc).
Proof.
  refine (proj1 (proj2 (@loadSampleData_totals sampleStore _ _))).
  wf_by_evaluation.
Defined.

(** * The sign of the return *)




